(** * generate_technical_report.py: the report generator

    A shallow embedding of [TechnicalReportGenerator]: the style registry,
    the story (the list of flowables that the section builders grow), the
    seven [add_*] methods and [generate], which hands the story to the layout
    library.

    The layout library (reportlab) is not part of the repository.  What the
    script uses of it is modelled as follows.
    - The values the script builds (numbers, colors, table commands, paragraph
      styles, tables, flowables) are plain data.  The markup inside a
      paragraph text is kept as the string handed to [Paragraph].
    - [StyleSheet1] is the library's style registry with its operations [add]
      and [__getitem__].
    - The sample style sheet, the defaults of [ParagraphStyle], the template
      constructor and [build] are the fields of a [Collaborator]; the
      theorems hold for every collaborator.  [build] is handed the story by
      reference and takes flowables out of it, so its result says what it
      left in the list.
    - The clock is an input: a method that reads it takes the reading as an
      argument.
    - A method is a function on the generator object that returns an
      exception or a value together with the object as the method left it.
    - The process the script runs in is explicit: the lines written to
      [sys.stdout], what its encoder does with a text, what the operating
      system answers about a file, and the calls of [build].  [print] raises
      when the encoder does.  A standard output that is closed and a shortage
      of memory are outside the model.
    - Lengths in points are kept as exact rationals.  The one division of the
      script, [size / 1024], is rounded to a double as Python rounds it. *)

From Stdlib Require Import QArith ZArith.
From stdpp Require Import gmap strings list fin_maps.

Set Warnings "-register-all,-clear-no-such-hyp".

(** ** Numbers, colors and attribute values *)

Inductive number : Type :=
| PyInt (z : Z)
| PyFloat (q : Q).

(** [reportlab.lib.units.inch] is [72.0]. *)
Definition inch : Q := 72%Q.

(** [x*inch] for a literal [x]. *)
Definition times_inch (x : Q) : number := PyFloat (x * inch)%Q.

(** [reportlab.lib.pagesizes.letter] is [(8.5*inch, 11*inch)]. *)
Definition letter : number * number := (times_inch 8.5, times_inch 11).

Inductive Color : Type :=
| HexColor (hex : string)
| white
| black.

Inductive Value : Type :=
| VNum (n : number)
| VStr (s : string)
| VColor (c : Color)
| VColors (cs : list Color).

Definition VInt (z : Z) : Value := VNum (PyInt z).

(** [reportlab.lib.enums]. *)
Definition TA_LEFT : Value := VInt 0.
Definition TA_CENTER : Value := VInt 1.

(** ** Exceptions *)

Inductive exn : Type :=
| Exn (cls : string) (msg : string).

Definition KeyError (msg : string) : exn := Exn "KeyError" msg.

(** ** Paragraph styles and the style registry *)

(** A [ParagraphStyle] object: its name, the parent it was derived from and
    its attribute dictionary. *)
Inductive ParagraphStyle : Type :=
| PropertySet (name : string) (parent : option ParagraphStyle)
    (attrs : gmap string Value).

Definition style_name (s : ParagraphStyle) : string :=
  match s with PropertySet n _ _ => n end.

Definition style_parent (s : ParagraphStyle) : option ParagraphStyle :=
  match s with PropertySet _ p _ => p end.

Definition style_attrs (s : ParagraphStyle) : gmap string Value :=
  match s with PropertySet _ _ a => a end.

(** [ParagraphStyle(name=..., parent=..., **kw)]: the class defaults, then the
    parent's attributes, then the keywords; later ones win. *)
Definition new_ParagraphStyle (defaults : gmap string Value) (name : string)
    (parent : ParagraphStyle) (kw : list (string * Value)) : ParagraphStyle :=
  PropertySet name (Some parent)
    (list_to_map kw ∪ style_attrs parent ∪ defaults).

Record StyleSheet1 : Type := mkStyleSheet1 {
  byName : gmap string ParagraphStyle;
  byAlias : gmap string ParagraphStyle
}.

(** [StyleSheet1.__getitem__]: the alias table first, then the name table. *)
Definition getitem (sh : StyleSheet1) (key : string) : option ParagraphStyle :=
  match byAlias sh !! key with
  | Some s => Some s
  | None => byName sh !! key
  end.

(** [StyleSheet1.add(style)] without alias: refused when the name is taken,
    as a name or as an alias. *)
Definition add (sh : StyleSheet1) (style : ParagraphStyle) : exn + StyleSheet1 :=
  let key := style_name style in
  match byName sh !! key with
  | Some _ => inl (KeyError ("Style '" +:+ key +:+ "' already defined in stylesheet"))
  | None =>
    match byAlias sh !! key with
    | Some _ => inl (KeyError ("Style name '" +:+ key +:+ "' is already an alias in stylesheet"))
    | None => inr (mkStyleSheet1 (<[key := style]> (byName sh)) (byAlias sh))
    end
  end.

(** ** Flowables *)

(** One [TableStyle] command, e.g. [('GRID', (0, 0), (-1, -1), 1, color)]. *)
Record TableCmd : Type := Cmd {
  cmd_op : string;
  cmd_start : Z * Z;
  cmd_stop : Z * Z;
  cmd_args : list Value
}.

(** A [Table] object: the cell values it was built from, the row and column
    counts the constructor derives from them, the column widths and the style
    commands set on it. *)
Record TableObj : Type := mkTable {
  _cellvalues : list (list string);
  _nrows : nat;
  _ncols : nat;
  _colWidths : list number;
  _cmds : list TableCmd
}.

(** [Table(data, colWidths=...)]. *)
Definition Table (data : list (list string)) (colWidths : list number) : TableObj :=
  {| _cellvalues := data;
     _nrows := length data;
     _ncols := foldr Nat.max 0 (map length data);
     _colWidths := colWidths;
     _cmds := [] |}.

Definition TableStyle (cmds : list TableCmd) : list TableCmd := cmds.

(** [table.setStyle(tblstyle)]: the commands are added to the table's. *)
Definition setStyle (t : TableObj) (tblstyle : list TableCmd) : TableObj :=
  {| _cellvalues := _cellvalues t;
     _nrows := _nrows t;
     _ncols := _ncols t;
     _colWidths := _colWidths t;
     _cmds := _cmds t ++ tblstyle |}.

Inductive Flowable : Type :=
| Paragraph (text : string) (style : ParagraphStyle)
| Spacer (width height : number)
| PageBreak
| TableF (t : TableObj).

(** ** The clock *)

Inductive Month : Type :=
| January | February | March | April | May | June
| July | August | September | October | November | December.

(** What [datetime.now()] returns, as far as the script reads it. *)
Record datetime : Type := mkDatetime {
  dt_year : nat;
  dt_month : Month;
  dt_day : nat
}.

Definition digit (n : nat) : string :=
  String (Ascii.ascii_of_nat (48 + n mod 10)) EmptyString.

Fixpoint decimal_go (fuel n : nat) (acc : string) : string :=
  match fuel with
  | O => acc
  | S fuel' =>
    let acc' := digit n +:+ acc in
    if (n / 10 =? 0)%nat then acc' else decimal_go fuel' (n / 10) acc'
  end.

Definition decimal (n : nat) : string := decimal_go (S n) n "".

(** [%d]: day of the month, two digits. *)
Definition strftime_d (d : datetime) : string :=
  digit (dt_day d / 10) +:+ digit (dt_day d).

(** [%B]: full month name; the script sets no locale, so the C locale's. *)
Definition strftime_B (d : datetime) : string :=
  match dt_month d with
  | January => "January" | February => "February" | March => "March"
  | April => "April" | May => "May" | June => "June"
  | July => "July" | August => "August" | September => "September"
  | October => "October" | November => "November" | December => "December"
  end.

(** [%Y]: the year in decimal. *)
Definition strftime_Y (d : datetime) : string := decimal (dt_year d).

(** [now.strftime('%d de %B, %Y')]. *)
Definition strftime (d : datetime) : string :=
  strftime_d d +:+ " de " +:+ strftime_B d +:+ ", " +:+ strftime_Y d.

(** ** The generator object *)

Record SimpleDocTemplate : Type := mkDoc {
  doc_filename : string;
  pagesize : number * number;
  rightMargin : number;
  leftMargin : number;
  topMargin : number;
  bottomMargin : number
}.

Record TechnicalReportGenerator : Type := mkGenerator {
  filename : string;
  doc : SimpleDocTemplate;
  styles : StyleSheet1;
  story : list Flowable
}.

Definition set_story (g : TechnicalReportGenerator) (st : list Flowable)
  : TechnicalReportGenerator :=
  {| filename := filename g; doc := doc g; styles := styles g; story := st |}.

Definition set_styles (g : TechnicalReportGenerator) (sh : StyleSheet1)
  : TechnicalReportGenerator :=
  {| filename := filename g; doc := doc g; styles := sh; story := story g |}.

(** ** Methods as state transformers that may raise

    A method runs on the object and returns either an exception or a value,
    together with the object as the method left it: an exception does not
    undo the appends made before it. *)

Definition Gen (A : Type) : Type :=
  TechnicalReportGenerator -> (exn + A) * TechnicalReportGenerator.

Definition ret {A} (a : A) : Gen A := fun g => (inr a, g).

Definition bind {A B} (m : Gen A) (k : A -> Gen B) : Gen B :=
  fun g =>
    match m g with
    | (inl e, g') => (inl e, g')
    | (inr a, g') => k a g'
    end.

Declare Scope gen_scope.
Delimit Scope gen_scope with gen.
Notation "'let*' x ':=' c1 'in' c2" := (bind c1 (fun x => c2))
  (at level 10, x name, c1 at level 100, c2 at level 200) : gen_scope.
Notation "e1 ';;' e2" := (bind e1 (fun _ => e2))
  (at level 100, e2 at level 200, right associativity) : gen_scope.

(** [self.styles[key]]. *)
Definition styles_getitem (key : string) : Gen ParagraphStyle :=
  fun g =>
    match getitem (styles g) key with
    | Some s => (inr s, g)
    | None => (inl (KeyError ("Style '" +:+ key +:+ "' not found in stylesheet")), g)
    end.

(** [self.styles.add(style)]. *)
Definition styles_add (style : ParagraphStyle) : Gen unit :=
  fun g =>
    match add (styles g) style with
    | inl e => (inl e, g)
    | inr sh => (inr tt, set_styles g sh)
    end.

(** [self.story.append(flowable)]. *)
Definition story_append (f : Flowable) : Gen unit :=
  fun g => (inr tt, set_story g (story g ++ [f])).

(** [for x in xs: body(x)]. *)
Fixpoint for_each {A} (xs : list A) (body : A -> Gen unit) : Gen unit :=
  match xs with
  | [] => ret tt
  | x :: xs' => bind (body x) (fun _ => for_each xs' body)
  end.

(** ** The text and the tables of the report

    The literals of the seven section builders, under the names of the local
    variables that hold them in the source.  Three builders call their opening
    paragraph [intro]; here they are [strategies_intro], [plan_intro] and
    [roi_intro].  A table is the value its variable holds once [setStyle] has
    been called on it. *)

(** The double quote character. *)
Definition dq : string := String (Ascii.ascii_of_nat 34) EmptyString.

(** Constants of [add_cover_page]. *)

Definition summary_data : list (list string) :=
  [ ["Componente"; "Valor"];
    ["Herramientas Analizadas"; "88 (73 activas)"];
    ["Líneas de Código"; "53,515"];
    ["Tablas de Datos"; "8 (Jobs, Contacts, Estimates, Invoices, etc.)"];
    ["Reducción Proyectada de Tokens"; "90-98%"];
    ["Ahorro Anual Estimado"; "$437,400 (deployment mediano)"];
    ["ROI Proyectado"; "1,458% anual"] ].

Definition summary_table : TableObj :=
  setStyle (Table summary_data [times_inch 3; times_inch 2.5])
    (TableStyle
      [ Cmd "BACKGROUND" (0, 0)%Z (-1, 0)%Z [VColor (HexColor "#1e3a8a")];
        Cmd "TEXTCOLOR" (0, 0)%Z (-1, 0)%Z [VColor white];
        Cmd "ALIGN" (0, 0)%Z (-1, -1)%Z [VStr "LEFT"];
        Cmd "FONTNAME" (0, 0)%Z (-1, 0)%Z [VStr "Helvetica-Bold"];
        Cmd "FONTSIZE" (0, 0)%Z (-1, 0)%Z [VInt 11];
        Cmd "BOTTOMPADDING" (0, 0)%Z (-1, 0)%Z [VInt 12];
        Cmd "BACKGROUND" (0, 1)%Z (-1, -1)%Z [VColor (HexColor "#f3f4f6")];
        Cmd "GRID" (0, 0)%Z (-1, -1)%Z [VInt 1; VColor (HexColor "#d1d5db")];
        Cmd "FONTNAME" (0, 1)%Z (-1, -1)%Z [VStr "Helvetica"];
        Cmd "FONTSIZE" (0, 1)%Z (-1, -1)%Z [VInt 10];
        Cmd "ROWBACKGROUNDS" (0, 1)%Z (-1, -1)%Z [VColors [white; (HexColor "#f9fafb")]] ]).

Definition info_text (now : datetime) : string :=
  ("
        <para alignment=" +:+ dq +:+ "center" +:+ dq +:+ ">
        <b>Fecha de Generación:</b> ")
  +:+ strftime now
  +:+ "<br/>
        <b>Versión del Servidor:</b> 1.0.2<br/>
        <b>Agentes Especializados:</b> 4 (Architect, Performance, Database, Backend)<br/>
        <b>Nivel de Análisis:</b> Ultra-Deep con AI Insights
        </para>
        ".

(** Constants of [add_executive_summary]. *)

Definition summary : string :=
  "
        El servidor JobNimbus MCP Remote presenta un <b>problema crítico de sobre-transmisión de datos</b>
        que resulta en un consumo excesivo de tokens (10,000-1,250,000 tokens por consulta), saturación
        del contexto del chat, y costos operacionales elevados ($40,500/mes en deployment mediano).
        ".

Definition problems : list string :=
  [ "<b>1. Over-Fetching Masivo (CRITICAL):</b> Patrón fetch-all-then-filter que descarga 2,000 jobs (5 MB) para retornar 30 filtrados (75 KB), desperdiciando 98.5% de los datos.";
    "<b>2. Campos JSONB sin Optimizar (HIGH):</b> Transmisión completa de campos JSONB que pueden alcanzar 100-400 KB por registro cuando solo se necesitan 5-10 KB.";
    "<b>3. Sin Compresión HTTP (CRITICAL):</b> Falta middleware compression() en Express, perdiendo 60-80% de potencial ahorro de bandwidth.";
    "<b>4. Límites por Defecto Muy Altos (HIGH):</b> maxIterations=20 permite fetch de 2,000 jobs; debería ser 5 (reducción de 75%).";
    "<b>5. Phase 3 No Es Default (MEDIUM):</b> Handle-based system existe pero requiere parámetros explícitos; 80% de herramientas no lo usan.";
    "<b>6. Herramientas Analíticas Sin Optimizar (HIGH):</b> 21 herramientas procesan 100-500 registros en memoria sin paginación ni lazy loading." ].

Definition impact_data : list (list string) :=
  [ ["Métrica"; "Antes"; "Después"; "Mejora"];
    ["Response Size"; "120 KB"; "12 KB"; "90% ↓"];
    ["Token Usage"; "30,000"; "3,000"; "90% ↓"];
    ["P50 Latency"; "520 ms"; "38 ms"; "93% ↓"];
    ["P95 Latency"; "1,450 ms"; "180 ms"; "88% ↓"];
    ["Cache Hit Rate"; "45%"; "87%"; "93% ↑"];
    ["Throughput"; "140 req/s"; "426 req/s"; "3x ↑"];
    ["Costo Mensual"; "$40,500"; "$4,050"; "$36,450 ahorro"] ].

Definition impact_table : TableObj :=
  setStyle (Table impact_data [times_inch 1.8; times_inch 1.2; times_inch 1.2; times_inch 1.3])
    (TableStyle
      [ Cmd "BACKGROUND" (0, 0)%Z (-1, 0)%Z [VColor (HexColor "#1e3a8a")];
        Cmd "TEXTCOLOR" (0, 0)%Z (-1, 0)%Z [VColor white];
        Cmd "ALIGN" (0, 0)%Z (-1, -1)%Z [VStr "CENTER"];
        Cmd "FONTNAME" (0, 0)%Z (-1, 0)%Z [VStr "Helvetica-Bold"];
        Cmd "FONTSIZE" (0, 0)%Z (-1, 0)%Z [VInt 10];
        Cmd "BOTTOMPADDING" (0, 0)%Z (-1, 0)%Z [VInt 10];
        Cmd "BACKGROUND" (0, 1)%Z (-1, -1)%Z [VColor (HexColor "#f3f4f6")];
        Cmd "GRID" (0, 0)%Z (-1, -1)%Z [VInt 1; VColor (HexColor "#d1d5db")];
        Cmd "FONTNAME" (0, 1)%Z (-1, -1)%Z [VStr "Helvetica"];
        Cmd "FONTSIZE" (0, 1)%Z (-1, -1)%Z [VInt 9] ]).

Definition recommendations : list string :=
  [ "<b>Semana 1-2:</b> Implementar Query Delegation Pattern + compression middleware + reducir límites default (maxIterations: 20→5, fetchSize: 500→100)";
    "<b>Semana 3-4:</b> Implementar JSONB Field Projection + forzar verbosity='compact' por defecto en todas las herramientas";
    "<b>Semana 5-6:</b> Migrar 58 herramientas restantes a Phase 3 + optimizar top 10 herramientas analíticas";
    "<b>Mes 2:</b> Implementar Aggregation Service + Smart Cache Invalidation + Streaming Responses" ].

(** Constants of [add_technical_analysis]. *)

Definition arch_text : string :=
  "
        El servidor utiliza una arquitectura de <b>4 capas</b>: Presentación (MCP Protocol),
        Lógica de Negocio (73 tool classes), Servicios (JobNimbusClient, CacheService, HandleStorage),
        y Datos (JobNimbus REST API + Redis Cache). La arquitectura es fundamentalmente <b>stateless</b>
        con un sistema handle-based para respuestas grandes implementado parcialmente (Phase 3).
        ".

Definition stack_data : list (list string) :=
  [ ["Componente"; "Tecnología"; "Versión"];
    ["Runtime"; "Node.js"; ">=20.0.0"];
    ["Framework"; "Express.js"; "4.18.2"];
    ["Lenguaje"; "TypeScript"; "5.9.3"];
    ["Protocol"; "MCP SDK"; "0.5.0"];
    ["Cache"; "Redis (ioredis)"; "5.8.1"];
    ["Security"; "Helmet"; "7.1.0"];
    ["Logging"; "Winston"; "3.11.0"];
    ["Validation"; "Zod"; "3.22.4"] ].

Definition stack_table : TableObj :=
  setStyle (Table stack_data [times_inch 1.8; times_inch 2; times_inch 1.5])
    (TableStyle
      [ Cmd "BACKGROUND" (0, 0)%Z (-1, 0)%Z [VColor (HexColor "#1e3a8a")];
        Cmd "TEXTCOLOR" (0, 0)%Z (-1, 0)%Z [VColor white];
        Cmd "ALIGN" (0, 0)%Z (-1, -1)%Z [VStr "LEFT"];
        Cmd "FONTNAME" (0, 0)%Z (-1, 0)%Z [VStr "Helvetica-Bold"];
        Cmd "FONTSIZE" (0, 0)%Z (-1, 0)%Z [VInt 10];
        Cmd "BOTTOMPADDING" (0, 0)%Z (-1, 0)%Z [VInt 10];
        Cmd "BACKGROUND" (0, 1)%Z (-1, -1)%Z [VColor (HexColor "#f9fafb")];
        Cmd "GRID" (0, 0)%Z (-1, -1)%Z [VInt 1; VColor (HexColor "#d1d5db")];
        Cmd "FONTNAME" (0, 1)%Z (-1, -1)%Z [VStr "Helvetica"];
        Cmd "FONTSIZE" (0, 1)%Z (-1, -1)%Z [VInt 9];
        Cmd "ROWBACKGROUNDS" (0, 1)%Z (-1, -1)%Z [VColors [white; (HexColor "#f3f4f6")]] ]).

Definition transmission_text : string :=
  "
        La transmisión de datos actual presenta <b>ineficiencias masivas</b> en tres niveles:
        ".

Definition transmission_issues : list string :=
  [ "<b>Nivel 1 - Fetch:</b> Se descargan 95-99% más datos de los necesarios debido al patrón fetch-all-then-filter. Ejemplo: getJobs con filtro de fecha descarga 2,000 jobs (300 MB) para retornar 150 (30 KB).";
    "<b>Nivel 2 - Serialización:</b> Campos JSONB (custom_fields, related, tags, items) se transmiten completos sin compactación. Un job con 89+ campos puede ocupar 150 KB cuando solo se necesitan 5 KB.";
    "<b>Nivel 3 - Compresión:</b> No hay middleware de compresión HTTP. GZIP reduciría 60% el tamaño de responses, Brotli 70%." ].

Definition scenarios_data : list (list string) :=
  [ ["Escenario"; "Fetch"; "Return"; "Desperdicio"; "Tokens"];
    ["Get Jobs (sin filtros)"; "12 KB"; "12 KB"; "0%"; "3,000"];
    ["Get Jobs (filtros fecha)"; "300 MB"; "30 KB"; "99.99%"; "7,500"];
    ["Insurance Pipeline"; "40 MB"; "200 KB"; "99.5%"; "50,000"];
    ["Get Job (con verify)"; "2.65 MB"; "8 KB"; "99.7%"; "2,000"];
    ["Revenue Report"; "150 MB"; "500 KB"; "99.67%"; "1,250,000"] ].

Definition scenarios_table : TableObj :=
  setStyle (Table scenarios_data [times_inch 1.5; times_inch 1; times_inch 1; times_inch 1; times_inch 1])
    (TableStyle
      [ Cmd "BACKGROUND" (0, 0)%Z (-1, 0)%Z [VColor (HexColor "#dc2626")];
        Cmd "TEXTCOLOR" (0, 0)%Z (-1, 0)%Z [VColor white];
        Cmd "ALIGN" (0, 0)%Z (-1, -1)%Z [VStr "CENTER"];
        Cmd "FONTNAME" (0, 0)%Z (-1, 0)%Z [VStr "Helvetica-Bold"];
        Cmd "FONTSIZE" (0, 0)%Z (-1, 0)%Z [VInt 9];
        Cmd "BOTTOMPADDING" (0, 0)%Z (-1, 0)%Z [VInt 8];
        Cmd "BACKGROUND" (0, 1)%Z (-1, -1)%Z [VColor (HexColor "#fef2f2")];
        Cmd "GRID" (0, 0)%Z (-1, -1)%Z [VInt 1; VColor (HexColor "#fecaca")];
        Cmd "FONTNAME" (0, 1)%Z (-1, -1)%Z [VStr "Helvetica"];
        Cmd "FONTSIZE" (0, 1)%Z (-1, -1)%Z [VInt 8] ]).

(** Constants of [add_optimization_strategies]. *)

Definition strategies_intro : string :=
  "
        Se han diseñado <b>6 estrategias de optimización</b> complementarias que trabajan en conjunto
        para reducir la transmisión de datos en 90-98%. Cada estrategia aborda un aspecto específico
        del problema y puede implementarse de forma incremental.
        ".

Definition strategy1 : string :=
  "
        <b>Objetivo:</b> Delegar filtrado, ordenamiento y paginación al backend de JobNimbus siempre que sea posible.<br/>
        <b>Impacto:</b> Reducción de 90-95% en datos transferidos<br/>
        <b>Complejidad:</b> Media (requiere modificar JobNimbusClient)<br/>
        <b>Archivos afectados:</b> src/services/jobNimbusClient.ts, src/tools/jobs/getJobs.ts (y 15+ herramientas)
        ".

Definition code1 : string :=
  "
// ANTES (fetch-all-then-filter)
const allJobs = await this.client.get(apiKey, 'jobs', { size: 2000 });
const filtered = allJobs.filter(j => j.date_created >= fromDate);

// DESPUÉS (query delegation)
const jobs = await this.client.get(apiKey, 'jobs', {
  size: 20,
  filter: JSON.stringify({
    must: [{ range: { date_created: { gte: fromDate } } }]
  })
});
        ".

Definition strategy2 : string :=
  "
        <b>Objetivo:</b> Seleccionar solo los campos necesarios, excluyendo JSONB pesados cuando no se requieren.<br/>
        <b>Impacto:</b> Reducción de 80-95% en tamaño de respuesta individual<br/>
        <b>Complejidad:</b> Baja (agregar parámetro fields)<br/>
        <b>Archivos afectados:</b> src/services/jobNimbusClient.ts, src/utils/fieldSelector.ts (nuevo)
        ".

Definition code2 : string :=
  "
// Implementación de field selection
interface APIOptions {
  fields?: string[];
  exclude_jsonb?: boolean;
}

await this.client.get(apiKey, 'jobs', {
  fields: ['jnid', 'number', 'name', 'status_name', 'date_created'],
  exclude_jsonb: true
});

// Reduce de 150 KB a 5 KB por job (97% reducción)
        ".

Definition strategy3 : string :=
  "
        <b>Objetivo:</b> Forzar uso del sistema handle-based (Phase 3) en TODAS las herramientas.<br/>
        <b>Impacto:</b> Consistencia 100%, reducción 70-90% en tokens<br/>
        <b>Complejidad:</b> Baja (modificar BaseTool.execute)<br/>
        <b>Archivos afectados:</b> src/tools/baseTool.ts
        ".

Definition code3 : string :=
  "
// En BaseTool.execute()
async execute(input: TInput, context: ToolContext) {
  // Force verbosity default
  if (!input.verbosity) {
    input.verbosity = 'compact';
  }

  const rawData = await this.executeImpl(input, context);

  // ALWAYS wrap response
  return await this.wrapResponse(rawData, input, context);
}
        ".

Definition additional_strategies : list string :=
  [ "<b>Estrategia 4 - HTTP Compression:</b> Agregar middleware compression() en Express para GZIP/Brotli (60-70% reducción de bandwidth). Complejidad: Muy baja (1 línea de código).";
    "<b>Estrategia 5 - Reduced Default Limits:</b> Cambiar maxIterations de 20 a 5, fetchSize de 500 a 100 (75% reducción en fetches). Complejidad: Muy baja (configuración).";
    "<b>Estrategia 6 - Smart Cache Multi-Tier:</b> Implementar cache de 3 niveles (Hot/Warm/Handle) con predictive warming. Complejidad: Alta (nueva infraestructura)." ].

(** Constants of [add_implementation_plan]. *)

Definition plan_intro : string :=
  "
        El plan de implementación está estructurado en <b>5 fases</b> a lo largo de 10 semanas,
        con entregables específicos, métricas de éxito y procedimientos de rollback para cada fase.
        La inversión total es de $30,010 inicial + $10/mes operacional.
        ".

Definition phase1 : string :=
  "
        <b>Objetivo:</b> Establecer infraestructura base para optimizaciones<br/>
        <b>Duración:</b> 2 semanas<br/>
        <b>Inversión:</b> $6,000<br/>
        <b>Entregables:</b>
        ".

Definition phase1_deliverables : list string :=
  [ "• Query Parser & Validator con Zod";
    "• Field Selector Engine para JSONB projection";
    "• Backward Compatibility Middleware";
    "• Unit tests (>80% coverage)" ].

Definition phase2 : string :=
  "
        <b>Objetivo:</b> Implementar compresión, transformación y cache<br/>
        <b>Duración:</b> 2 semanas<br/>
        <b>Inversión:</b> $6,000<br/>
        <b>Entregables:</b>
        ".

Definition phase2_deliverables : list string :=
  [ "• Data Transformer con 4 niveles de verbosity";
    "• Compression Middleware (GZIP + Brotli)";
    "• Smart Cache Manager (3 tiers)";
    "• Integration tests" ].

Definition phase3 : string :=
  "
        <b>Objetivo:</b> Agregar inteligencia predictiva al cache<br/>
        <b>Duración:</b> 2 semanas<br/>
        <b>Inversión:</b> $6,000<br/>
        <b>Entregables:</b>
        ".

Definition phase3_deliverables : list string :=
  [ "• Access Pattern Analyzer";
    "• Predictive Cache Warming (ML-based)";
    "• Dynamic TTL Manager";
    "• Performance benchmarks" ].

Definition phase4 : string :=
  "
        <b>Objetivo:</b> Migrar todas las 88 herramientas a nuevo sistema<br/>
        <b>Duración:</b> 2 semanas<br/>
        <b>Inversión:</b> $8,000<br/>
        <b>Entregables:</b>
        ".

Definition phase4_deliverables : list string :=
  [ "• 88 herramientas migradas a Phase 3";
    "• Documentación actualizada (README, API docs)";
    "• E2E testing suite";
    "• Staging deployment" ].

Definition phase5 : string :=
  "
        <b>Objetivo:</b> Limpiar código legacy y lanzar a producción<br/>
        <b>Duración:</b> 2 semanas<br/>
        <b>Inversión:</b> $4,000<br/>
        <b>Entregables:</b>
        ".

Definition phase5_deliverables : list string :=
  [ "• Código legacy removido";
    "• Performance tuning final";
    "• Production deployment";
    "• Monitoring dashboard configurado" ].

Definition timeline_data : list (list string) :=
  [ ["Fase"; "Semanas"; "Inversión"; "Entregables Clave"];
    ["1. Foundation"; "1-2"; "$6,000"; "Query Parser, Field Selector"];
    ["2. Optimization"; "3-4"; "$6,000"; "Compression, Cache, Transformer"];
    ["3. Intelligence"; "5-6"; "$6,000"; "Predictive Cache, Dynamic TTL"];
    ["4. Migration"; "7-8"; "$8,000"; "88 tools migrated, E2E tests"];
    ["5. Launch"; "9-10"; "$4,000"; "Production deployment, monitoring"];
    ["TOTAL"; "10 semanas"; "$30,000"; "+ $10/mes operacional"] ].

Definition timeline_table : TableObj :=
  setStyle (Table timeline_data [times_inch 1.2; times_inch 1; times_inch 1; times_inch 2.3])
    (TableStyle
      [ Cmd "BACKGROUND" (0, 0)%Z (-1, 0)%Z [VColor (HexColor "#1e3a8a")];
        Cmd "TEXTCOLOR" (0, 0)%Z (-1, 0)%Z [VColor white];
        Cmd "ALIGN" (0, 0)%Z (-1, -1)%Z [VStr "CENTER"];
        Cmd "FONTNAME" (0, 0)%Z (-1, 0)%Z [VStr "Helvetica-Bold"];
        Cmd "FONTSIZE" (0, 0)%Z (-1, 0)%Z [VInt 9];
        Cmd "BOTTOMPADDING" (0, 0)%Z (-1, 0)%Z [VInt 8];
        Cmd "BACKGROUND" (0, 1)%Z (0, -2)%Z [VColor (HexColor "#f3f4f6")];
        Cmd "BACKGROUND" (-1, -1)%Z (-1, -1)%Z [VColor (HexColor "#dcfce7")];
        Cmd "GRID" (0, 0)%Z (-1, -1)%Z [VInt 1; VColor (HexColor "#d1d5db")];
        Cmd "FONTNAME" (0, 1)%Z (-1, -1)%Z [VStr "Helvetica"];
        Cmd "FONTSIZE" (0, 1)%Z (-1, -1)%Z [VInt 8];
        Cmd "FONTNAME" (-1, -1)%Z (-1, -1)%Z [VStr "Helvetica-Bold"] ]).

(** Constants of [add_roi_analysis]. *)

Definition roi_intro : string :=
  "
        El análisis de ROI considera tres escenarios de deployment (pequeño, mediano, grande)
        con proyecciones a 1, 3 y 5 años. El payback period es de <b>0.82 meses</b> en deployment
        mediano, con ROI anual de <b>1,458%</b>.
        ".

Definition costs_data : list (list string) :=
  [ ["Deployment"; "Usuarios"; "Antes"; "Después"; "Ahorro/Mes"; "Ahorro/Año"];
    ["Pequeño"; "10"; "$8,100"; "$810"; "$7,290"; "$87,480"];
    ["Mediano"; "50"; "$40,500"; "$4,050"; "$36,450"; "$437,400"];
    ["Grande"; "200"; "$162,000"; "$16,200"; "$145,800"; "$1,749,600"] ].

Definition costs_table : TableObj :=
  setStyle (Table costs_data [times_inch 1.2; times_inch 0.9; times_inch 1; times_inch 1; times_inch 1.1; times_inch 1.1])
    (TableStyle
      [ Cmd "BACKGROUND" (0, 0)%Z (-1, 0)%Z [VColor (HexColor "#059669")];
        Cmd "TEXTCOLOR" (0, 0)%Z (-1, 0)%Z [VColor white];
        Cmd "ALIGN" (0, 0)%Z (-1, -1)%Z [VStr "CENTER"];
        Cmd "FONTNAME" (0, 0)%Z (-1, 0)%Z [VStr "Helvetica-Bold"];
        Cmd "FONTSIZE" (0, 0)%Z (-1, 0)%Z [VInt 9];
        Cmd "BOTTOMPADDING" (0, 0)%Z (-1, 0)%Z [VInt 8];
        Cmd "BACKGROUND" (0, 1)%Z (-1, -1)%Z [VColor (HexColor "#f0fdf4")];
        Cmd "GRID" (0, 0)%Z (-1, -1)%Z [VInt 1; VColor (HexColor "#bbf7d0")];
        Cmd "FONTNAME" (0, 1)%Z (-1, -1)%Z [VStr "Helvetica"];
        Cmd "FONTSIZE" (0, 1)%Z (-1, -1)%Z [VInt 8];
        Cmd "TEXTCOLOR" (4, 1)%Z (5, -1)%Z [VColor (HexColor "#059669")];
        Cmd "FONTNAME" (4, 1)%Z (5, -1)%Z [VStr "Helvetica-Bold"] ]).

Definition roi_data : list (list string) :=
  [ ["Período"; "Inversión"; "Ahorro"; "ROI"; "Payback"];
    ["Año 1"; "$30,010"; "$437,400"; "1,458%"; "0.82 meses"];
    ["Año 3"; "$30,370"; "$1,312,200"; "4,321%"; "-"];
    ["Año 5"; "$30,730"; "$2,187,000"; "7,115%"; "-"] ].

Definition roi_table : TableObj :=
  setStyle (Table roi_data [times_inch 1.2; times_inch 1.2; times_inch 1.2; times_inch 1; times_inch 1.2])
    (TableStyle
      [ Cmd "BACKGROUND" (0, 0)%Z (-1, 0)%Z [VColor (HexColor "#1e3a8a")];
        Cmd "TEXTCOLOR" (0, 0)%Z (-1, 0)%Z [VColor white];
        Cmd "ALIGN" (0, 0)%Z (-1, -1)%Z [VStr "CENTER"];
        Cmd "FONTNAME" (0, 0)%Z (-1, 0)%Z [VStr "Helvetica-Bold"];
        Cmd "FONTSIZE" (0, 0)%Z (-1, 0)%Z [VInt 9];
        Cmd "BOTTOMPADDING" (0, 0)%Z (-1, 0)%Z [VInt 8];
        Cmd "BACKGROUND" (0, 1)%Z (-1, -1)%Z [VColor (HexColor "#eff6ff")];
        Cmd "GRID" (0, 0)%Z (-1, -1)%Z [VInt 1; VColor (HexColor "#bfdbfe")];
        Cmd "FONTNAME" (0, 1)%Z (-1, -1)%Z [VStr "Helvetica"];
        Cmd "FONTSIZE" (0, 1)%Z (-1, -1)%Z [VInt 8] ]).

Definition intangible_benefits : list string :=
  [ "<b>Experiencia de Usuario Mejorada:</b> Reducción de 93% en latencia P50 (520ms → 38ms) mejora significativamente la UX.";
    "<b>Escalabilidad:</b> Throughput aumenta 3x (140 req/s → 426 req/s), permitiendo crecer sin infraestructura adicional.";
    "<b>Calidad de Respuestas:</b> Menos tokens desperdiciados = más contexto útil = respuestas más precisas del AI.";
    "<b>Competitividad:</b> Sistema enterprise-grade con performance comparable a soluciones comerciales de $100k+." ].

(** Constants of [add_conclusions]. *)

Definition conclusions : list string :=
  [ "<b>1. Problema Crítico Confirmado:</b> El servidor transmite 95-99% más datos de los necesarios, consumiendo 10,000-1,250,000 tokens por consulta y saturando el contexto del chat.";
    "<b>2. Solución Enterprise-Grade Diseñada:</b> Arquitectura de 6 estrategias complementarias que reducen transmisión en 90-98% sin pérdida de funcionalidad.";
    "<b>3. ROI Excepcional:</b> Inversión de $30,010 con payback en 0.82 meses y ROI anual de 1,458% en deployment mediano.";
    "<b>4. Implementación Gradual:</b> Plan de 10 semanas con 5 fases, rollback procedures, y métricas de éxito por fase.";
    "<b>5. Impacto Cuantificado:</b> Reducción del 90% en tokens, 93% en latencia, 3x en throughput, y $437,400/año en ahorros." ].

Definition next_steps : list string :=
  [ "<b>Semana 1 (Inmediato):</b> Implementar compression middleware (1 línea de código) + reducir límites default (maxIterations: 20→5). Ahorro inmediato: 60-75%.";
    "<b>Semana 2-3:</b> Implementar Query Delegation Pattern para top 5 herramientas más costosas (get_revenue_report, get_consolidated_financials, get_attachments, analyze_insurance_pipeline, get_job_analytics).";
    "<b>Semana 4-6:</b> Implementar JSONB Field Projection + forzar verbosity='compact' en todas las herramientas.";
    "<b>Mes 2-3:</b> Ejecutar plan completo de 10 semanas con todas las 5 fases." ].

Definition risks : list string :=
  [ "<b>Riesgo 1 - Breaking Changes:</b> Mitigación: Backward compatibility middleware + opt-in gradual.";
    "<b>Riesgo 2 - Complejidad Técnica:</b> Mitigación: Plan por fases con rollback procedures.";
    "<b>Riesgo 3 - Testing Exhaustivo:</b> Mitigación: Unit tests >80% coverage + E2E tests + staging.";
    "<b>Riesgo 4 - Resistencia al Cambio:</b> Mitigación: Documentación clara + ejemplos de código + capacitación." ].

Definition final_note : string :=
  ("
        <para alignment=" +:+ dq +:+ "center" +:+ dq +:+ ">
        <b>Este reporte técnico ha sido generado mediante análisis profundo con 4 agentes especializados
        (Architect Review, Performance Engineer, Database Optimizer, Backend Architect) utilizando
        AI insights y metodologías enterprise-grade.</b>
        </para>
        ").

(** ** The section builders *)

Definition add_cover_page (now : datetime) : Gen unit :=
  (let* title_style := styles_getitem "CustomTitle" in
   let title := Paragraph "JobNimbus MCP Remote Server" title_style in
   story_append title ;;
   story_append (Spacer (PyInt 1) (times_inch 0.3)) ;;
   let* subtitle_style := styles_getitem "CustomSubtitle" in
   let subtitle := Paragraph "Análisis Técnico Especializado de Optimización" subtitle_style in
   story_append subtitle ;;
   story_append (Spacer (PyInt 1) (times_inch 0.5)) ;;
   story_append (TableF summary_table) ;;
   story_append (Spacer (PyInt 1) (times_inch 0.5)) ;;
   (let* s := styles_getitem "BodyText" in
   story_append (Paragraph (info_text now) s)) ;;
   story_append PageBreak)%gen.

Definition add_executive_summary : Gen unit :=
  ((let* s := styles_getitem "Section" in
   story_append (Paragraph "RESUMEN EJECUTIVO" s)) ;;
   (let* s := styles_getitem "BodyText" in
   story_append (Paragraph summary s)) ;;
   story_append (Spacer (PyInt 1) (PyInt 12)) ;;
   (let* s := styles_getitem "Subsection" in
   story_append (Paragraph "Problemas Críticos Identificados:" s)) ;;
   for_each problems (fun problem =>
      (let* s := styles_getitem "BodyText" in
       story_append (Paragraph problem s)) ;;
      story_append (Spacer (PyInt 1) (PyInt 8))) ;;
   story_append (Spacer (PyInt 1) (PyInt 12)) ;;
   (let* s := styles_getitem "Subsection" in
   story_append (Paragraph "Impacto Cuantificado:" s)) ;;
   story_append (TableF impact_table) ;;
   story_append (Spacer (PyInt 1) (PyInt 12)) ;;
   (let* s := styles_getitem "Subsection" in
   story_append (Paragraph "Recomendaciones Principales (Prioridad CRITICAL):" s)) ;;
   for_each recommendations (fun rec =>
      (let* s := styles_getitem "BodyText" in
       story_append (Paragraph rec s)) ;;
      story_append (Spacer (PyInt 1) (PyInt 8))) ;;
   story_append PageBreak)%gen.

Definition add_technical_analysis : Gen unit :=
  ((let* s := styles_getitem "Section" in
   story_append (Paragraph "ANÁLISIS TÉCNICO DETALLADO" s)) ;;
   (let* s := styles_getitem "Subsection" in
   story_append (Paragraph "1. Arquitectura Actual del Sistema" s)) ;;
   (let* s := styles_getitem "BodyText" in
   story_append (Paragraph arch_text s)) ;;
   story_append (Spacer (PyInt 1) (PyInt 12)) ;;
   (let* s := styles_getitem "Subsection" in
   story_append (Paragraph "Stack Tecnológico:" s)) ;;
   story_append (TableF stack_table) ;;
   story_append (Spacer (PyInt 1) (PyInt 15)) ;;
   (let* s := styles_getitem "Subsection" in
   story_append (Paragraph "2. Análisis de Transmisión de Datos" s)) ;;
   (let* s := styles_getitem "BodyText" in
   story_append (Paragraph transmission_text s)) ;;
   story_append (Spacer (PyInt 1) (PyInt 10)) ;;
   for_each transmission_issues (fun issue =>
      (let* s := styles_getitem "BodyText" in
       story_append (Paragraph issue s)) ;;
      story_append (Spacer (PyInt 1) (PyInt 8))) ;;
   story_append (Spacer (PyInt 1) (PyInt 12)) ;;
   (let* s := styles_getitem "Subsection" in
   story_append (Paragraph "Escenarios de Uso y Consumo de Datos:" s)) ;;
   story_append (TableF scenarios_table) ;;
   story_append (Spacer (PyInt 1) (PyInt 10)) ;;
   let* warning_style := styles_getitem "Highlight" in
   let warning := Paragraph "<b>⚠️ NOTA CRÍTICA:</b> Los escenarios con desperdicio >99% son insostenibles en producción y causan saturación del chat." warning_style in
   story_append warning ;;
   story_append PageBreak)%gen.

Definition add_optimization_strategies : Gen unit :=
  ((let* s := styles_getitem "Section" in
   story_append (Paragraph "ESTRATEGIAS DE OPTIMIZACIÓN" s)) ;;
   (let* s := styles_getitem "BodyText" in
   story_append (Paragraph strategies_intro s)) ;;
   story_append (Spacer (PyInt 1) (PyInt 15)) ;;
   (let* s := styles_getitem "Subsection" in
   story_append (Paragraph "Estrategia 1: Query Delegation Pattern" s)) ;;
   (let* s := styles_getitem "BodyText" in
   story_append (Paragraph strategy1 s)) ;;
   story_append (Spacer (PyInt 1) (PyInt 10)) ;;
   (let* s := styles_getitem "Code" in
   story_append (Paragraph code1 s)) ;;
   story_append (Spacer (PyInt 1) (PyInt 12)) ;;
   (let* s := styles_getitem "Subsection" in
   story_append (Paragraph "Estrategia 2: JSONB Field Projection" s)) ;;
   (let* s := styles_getitem "BodyText" in
   story_append (Paragraph strategy2 s)) ;;
   story_append (Spacer (PyInt 1) (PyInt 10)) ;;
   (let* s := styles_getitem "Code" in
   story_append (Paragraph code2 s)) ;;
   story_append (Spacer (PyInt 1) (PyInt 12)) ;;
   (let* s := styles_getitem "Subsection" in
   story_append (Paragraph "Estrategia 3: Mandatory Phase 3 Enforcement" s)) ;;
   (let* s := styles_getitem "BodyText" in
   story_append (Paragraph strategy3 s)) ;;
   story_append (Spacer (PyInt 1) (PyInt 10)) ;;
   (let* s := styles_getitem "Code" in
   story_append (Paragraph code3 s)) ;;
   story_append (Spacer (PyInt 1) (PyInt 12)) ;;
   (let* s := styles_getitem "Subsection" in
   story_append (Paragraph "Estrategias Adicionales (4-6):" s)) ;;
   for_each additional_strategies (fun strategy =>
      (let* s := styles_getitem "BodyText" in
       story_append (Paragraph strategy s)) ;;
      story_append (Spacer (PyInt 1) (PyInt 8))) ;;
   story_append PageBreak)%gen.

Definition add_implementation_plan : Gen unit :=
  ((let* s := styles_getitem "Section" in
   story_append (Paragraph "PLAN DE IMPLEMENTACIÓN" s)) ;;
   (let* s := styles_getitem "BodyText" in
   story_append (Paragraph plan_intro s)) ;;
   story_append (Spacer (PyInt 1) (PyInt 15)) ;;
   (let* s := styles_getitem "Subsection" in
   story_append (Paragraph "Fase 1: Foundation (Semana 1-2)" s)) ;;
   (let* s := styles_getitem "BodyText" in
   story_append (Paragraph phase1 s)) ;;
   for_each phase1_deliverables (fun item =>
      (let* s := styles_getitem "BodyText" in
       story_append (Paragraph item s))) ;;
   story_append (Spacer (PyInt 1) (PyInt 8)) ;;
   let* phase1_success_style := styles_getitem "Metric" in
   let phase1_success := Paragraph "<b>Métricas de Éxito:</b> Validación de queries funcional, field selection operativo, tests pasando" phase1_success_style in
   story_append phase1_success ;;
   story_append (Spacer (PyInt 1) (PyInt 12)) ;;
   (let* s := styles_getitem "Subsection" in
   story_append (Paragraph "Fase 2: Optimization Layer (Semana 3-4)" s)) ;;
   (let* s := styles_getitem "BodyText" in
   story_append (Paragraph phase2 s)) ;;
   for_each phase2_deliverables (fun item =>
      (let* s := styles_getitem "BodyText" in
       story_append (Paragraph item s))) ;;
   story_append (Spacer (PyInt 1) (PyInt 8)) ;;
   let* phase2_success_style := styles_getitem "Metric" in
   let phase2_success := Paragraph "<b>Métricas de Éxito:</b> 60% reducción en response size, cache hit rate >50%, compresión funcional" phase2_success_style in
   story_append phase2_success ;;
   story_append (Spacer (PyInt 1) (PyInt 12)) ;;
   (let* s := styles_getitem "Subsection" in
   story_append (Paragraph "Fase 3: Intelligence Layer (Semana 5-6)" s)) ;;
   (let* s := styles_getitem "BodyText" in
   story_append (Paragraph phase3 s)) ;;
   for_each phase3_deliverables (fun item =>
      (let* s := styles_getitem "BodyText" in
       story_append (Paragraph item s))) ;;
   story_append (Spacer (PyInt 1) (PyInt 8)) ;;
   let* phase3_success_style := styles_getitem "Metric" in
   let phase3_success := Paragraph "<b>Métricas de Éxito:</b> Cache hit rate >70%, predicción >50% accuracy, TTL auto-tuning funcional" phase3_success_style in
   story_append phase3_success ;;
   story_append (Spacer (PyInt 1) (PyInt 12)) ;;
   (let* s := styles_getitem "Subsection" in
   story_append (Paragraph "Fase 4: Full Migration (Semana 7-8)" s)) ;;
   (let* s := styles_getitem "BodyText" in
   story_append (Paragraph phase4 s)) ;;
   for_each phase4_deliverables (fun item =>
      (let* s := styles_getitem "BodyText" in
       story_append (Paragraph item s))) ;;
   story_append (Spacer (PyInt 1) (PyInt 8)) ;;
   let* phase4_success_style := styles_getitem "Metric" in
   let phase4_success := Paragraph "<b>Métricas de Éxito:</b> 100% herramientas migradas, E2E tests >95% passing, staging estable" phase4_success_style in
   story_append phase4_success ;;
   story_append (Spacer (PyInt 1) (PyInt 12)) ;;
   (let* s := styles_getitem "Subsection" in
   story_append (Paragraph "Fase 5: Cleanup & Launch (Semana 9-10)" s)) ;;
   (let* s := styles_getitem "BodyText" in
   story_append (Paragraph phase5 s)) ;;
   for_each phase5_deliverables (fun item =>
      (let* s := styles_getitem "BodyText" in
       story_append (Paragraph item s))) ;;
   story_append (Spacer (PyInt 1) (PyInt 8)) ;;
   let* phase5_success_style := styles_getitem "Metric" in
   let phase5_success := Paragraph "<b>Métricas de Éxito:</b> Production estable, métricas objetivo alcanzadas, zero critical bugs" phase5_success_style in
   story_append phase5_success ;;
   story_append (Spacer (PyInt 1) (PyInt 12)) ;;
   story_append (TableF timeline_table) ;;
   story_append PageBreak)%gen.

Definition add_roi_analysis : Gen unit :=
  ((let* s := styles_getitem "Section" in
   story_append (Paragraph "ANÁLISIS DE ROI Y MÉTRICAS FINANCIERAS" s)) ;;
   (let* s := styles_getitem "BodyText" in
   story_append (Paragraph roi_intro s)) ;;
   story_append (Spacer (PyInt 1) (PyInt 15)) ;;
   (let* s := styles_getitem "Subsection" in
   story_append (Paragraph "Costos Operacionales Mensuales:" s)) ;;
   story_append (TableF costs_table) ;;
   story_append (Spacer (PyInt 1) (PyInt 15)) ;;
   (let* s := styles_getitem "Subsection" in
   story_append (Paragraph "ROI por Escenario (Deployment Mediano):" s)) ;;
   story_append (TableF roi_table) ;;
   story_append (Spacer (PyInt 1) (PyInt 15)) ;;
   (let* s := styles_getitem "Subsection" in
   story_append (Paragraph "Beneficios Intangibles:" s)) ;;
   for_each intangible_benefits (fun benefit =>
      (let* s := styles_getitem "BodyText" in
       story_append (Paragraph benefit s)) ;;
      story_append (Spacer (PyInt 1) (PyInt 8))) ;;
   story_append PageBreak)%gen.

Definition add_conclusions : Gen unit :=
  ((let* s := styles_getitem "Section" in
   story_append (Paragraph "CONCLUSIONES Y PRÓXIMOS PASOS" s)) ;;
   (let* s := styles_getitem "Subsection" in
   story_append (Paragraph "Conclusiones Principales:" s)) ;;
   for_each conclusions (fun conclusion =>
      (let* s := styles_getitem "BodyText" in
       story_append (Paragraph conclusion s)) ;;
      story_append (Spacer (PyInt 1) (PyInt 10))) ;;
   story_append (Spacer (PyInt 1) (PyInt 15)) ;;
   (let* s := styles_getitem "Subsection" in
   story_append (Paragraph "Próximos Pasos Recomendados:" s)) ;;
   for_each next_steps (fun step =>
      (let* s := styles_getitem "BodyText" in
       story_append (Paragraph step s)) ;;
      story_append (Spacer (PyInt 1) (PyInt 8))) ;;
   story_append (Spacer (PyInt 1) (PyInt 15)) ;;
   (let* s := styles_getitem "Subsection" in
   story_append (Paragraph "Riesgos Identificados y Mitigación:" s)) ;;
   for_each risks (fun risk =>
      (let* s := styles_getitem "BodyText" in
       story_append (Paragraph risk s)) ;;
      story_append (Spacer (PyInt 1) (PyInt 8))) ;;
   story_append (Spacer (PyInt 1) (PyInt 20)) ;;
   (let* s := styles_getitem "BodyText" in
   story_append (Paragraph final_note s)))%gen.

(** ** Initialisation *)

Definition _setup_custom_styles (defaults : gmap string Value) : Gen unit :=
  ((let* parent := styles_getitem "Heading1" in
    styles_add (new_ParagraphStyle defaults "CustomTitle" parent
      [("fontSize", VInt 24);
       ("textColor", VColor (HexColor "#1e3a8a"));
       ("spaceAfter", VInt 30);
       ("alignment", TA_CENTER);
       ("fontName", VStr "Helvetica-Bold")])) ;;
   (let* parent := styles_getitem "Heading2" in
    styles_add (new_ParagraphStyle defaults "CustomSubtitle" parent
      [("fontSize", VInt 16);
       ("textColor", VColor (HexColor "#3b82f6"));
       ("spaceAfter", VInt 12);
       ("spaceBefore", VInt 12);
       ("fontName", VStr "Helvetica-Bold")])) ;;
   (let* parent := styles_getitem "Heading2" in
    styles_add (new_ParagraphStyle defaults "Section" parent
      [("fontSize", VInt 14);
       ("textColor", VColor (HexColor "#1e40af"));
       ("spaceAfter", VInt 10);
       ("spaceBefore", VInt 20);
       ("fontName", VStr "Helvetica-Bold");
       ("borderColor", VColor (HexColor "#3b82f6"));
       ("borderWidth", VInt 0);
       ("borderPadding", VInt 5)])) ;;
   (let* parent := styles_getitem "Heading3" in
    styles_add (new_ParagraphStyle defaults "Subsection" parent
      [("fontSize", VInt 12);
       ("textColor", VColor (HexColor "#2563eb"));
       ("spaceAfter", VInt 8);
       ("spaceBefore", VInt 10);
       ("fontName", VStr "Helvetica-Bold")])) ;;
   (let* parent := styles_getitem "Normal" in
    styles_add (new_ParagraphStyle defaults "CustomCode" parent
      [("fontSize", VInt 9);
       ("fontName", VStr "Courier");
       ("textColor", VColor (HexColor "#1f2937"));
       ("leftIndent", VInt 20);
       ("rightIndent", VInt 20);
       ("spaceAfter", VInt 10);
       ("spaceBefore", VInt 10);
       ("backColor", VColor (HexColor "#f3f4f6"))])) ;;
   (let* parent := styles_getitem "BodyText" in
    styles_add (new_ParagraphStyle defaults "Highlight" parent
      [("fontSize", VInt 11);
       ("textColor", VColor (HexColor "#dc2626"));
       ("fontName", VStr "Helvetica-Bold")])) ;;
   (let* parent := styles_getitem "BodyText" in
    styles_add (new_ParagraphStyle defaults "Metric" parent
      [("fontSize", VInt 10);
       ("textColor", VColor (HexColor "#059669"));
       ("fontName", VStr "Helvetica-Bold");
       ("leftIndent", VInt 15)])))%gen.

(** ** The layout library as a collaborator *)

(** What [doc.build(story)] did: the exception it raised or the size in bytes
    of the file it wrote, and what it left in the list it was handed (the list
    is passed by reference, and reportlab's [build] takes the flowables out
    of it as it handles them; see [drains]). *)
Record BuildResult : Type := mkBuildResult {
  outcome : exn + N;
  remaining : list Flowable
}.

Record Collaborator : Type := mkCollaborator {
  (** the class attribute [ParagraphStyle.defaults] *)
  defaults : gmap string Value;
  (** what [getSampleStyleSheet()] returns *)
  getSampleStyleSheet : StyleSheet1;
  (** the exception [SimpleDocTemplate(...)] raises for these arguments, if any *)
  new_template : SimpleDocTemplate -> option exn;
  (** [doc.build(flowables)] *)
  build : SimpleDocTemplate -> list Flowable -> BuildResult
}.

Definition default_filename : string :=
  "JobNimbus_MCP_Technical_Optimization_Report.pdf".

(** [SimpleDocTemplate(filename, pagesize=letter, rightMargin=0.75*inch, ...)]:
    the template object, when the constructor returns. *)
Definition new_doc (filename : string) : SimpleDocTemplate :=
  {| doc_filename := filename;
     pagesize := letter;
     rightMargin := times_inch 0.75;
     leftMargin := times_inch 0.75;
     topMargin := times_inch 0.75;
     bottomMargin := times_inch 0.75 |}.

(** [TechnicalReportGenerator(filename)]. *)
Definition __init__ (lib : Collaborator) (filename : string)
  : exn + TechnicalReportGenerator :=
  match new_template lib (new_doc filename) with
  | Some e => inl e
  | None =>
    let self := {| filename := filename;
                   doc := new_doc filename;
                   styles := getSampleStyleSheet lib;
                   story := [] |} in
    match _setup_custom_styles (defaults lib) self with
    | (inl e, _) => inl e
    | (inr _, self') => inr self'
    end
  end.

(** ** The process around the object: console, file system and calls to the library *)

(** The process the script runs in: the lines written to [sys.stdout] so far;
    what the encoder of [sys.stdout] does with a text ([None] when it encodes
    it, else the [UnicodeEncodeError] it raises); what the operating system
    does when asked for the size of a file ([None] when it answers, else the
    [OSError] raised); and the calls of [build] made so far. *)
Record Process : Type := mkProcess {
  stdout : list string;
  encode_error : string -> option exn;
  getsize_error : string -> option exn;
  build_calls : list (SimpleDocTemplate * list Flowable)
}.

(** A line arrives on the console. *)
Definition write (line : string) (p : Process) : Process :=
  {| stdout := stdout p ++ [line];
     encode_error := encode_error p;
     getsize_error := getsize_error p;
     build_calls := build_calls p |}.

(** [print(line)]: the line is encoded before anything is written, so that a
    line the console cannot encode raises and leaves the console as it was. *)
Definition print (line : string) (p : Process) : exn + Process :=
  match encode_error p line with
  | Some e => inl e
  | None => inr (write line p)
  end.

Definition record_build (d : SimpleDocTemplate) (st : list Flowable) (p : Process)
  : Process :=
  {| stdout := stdout p;
     encode_error := encode_error p;
     getsize_error := getsize_error p;
     build_calls := build_calls p ++ [(d, st)] |}.

(** [os.path.getsize(path)], when [build] has written [size] bytes to
    [path]. *)
Definition getsize (path : string) (size : N) (p : Process) : exn + N :=
  match getsize_error p path with
  | Some e => inl e
  | None => inr size
  end.

(** The double nearest to an integer, a tie going to the even significand:
    the integer itself when it has at most 53 bits. *)
Definition nearest_double (n : N) : N :=
  let drop := (N.size n - 53)%N in
  let q := N.shiftr n drop in
  let r := (n - N.shiftl q drop)%N in
  let half := N.shiftl 1 (drop - 1) in
  if (drop =? 0)%N then n
  else if (half <? r)%N then N.shiftl (q + 1) drop
  else if (r =? half)%N && N.odd q then N.shiftl (q + 1) drop
  else N.shiftl q drop.

(** [size / 1024] for an [int]: Python gives the double nearest to the
    quotient, and raises when that is beyond the largest double.  Dividing by
    2^10 moves the exponent only, so the result is returned as the integer
    [1024 * (size / 1024)]. *)
Definition div_1024 (size : N) : exn + N :=
  let d := nearest_double size in
  if (N.shiftl 1 1034 <=? d)%N
  then inl (Exn "OverflowError" "integer division result too large for a float")
  else inr d.

(** The decimal digits of a number in binary. *)
Fixpoint decimal_N_go (fuel : nat) (n : N) (acc : string) : string :=
  match fuel with
  | O => acc
  | S fuel' =>
    let acc' := digit (N.to_nat (n mod 10)) +:+ acc in
    if (n / 10 =? 0)%N then acc' else decimal_N_go fuel' (n / 10) acc'
  end.

Definition decimal_N (n : N) : string :=
  decimal_N_go (S (N.to_nat (N.size n))) n "".

(** [f"{x:.2f}"] for the double [x = d / 1024]: the decimal expansion of [x]
    rounded to the nearest hundredth, a tie going to the even one. *)
Definition format_2f (d : N) : string :=
  let q := (d * 100 / 1024)%N in
  let r := (d * 100 mod 1024)%N in
  let h := if (512 <? r)%N then (q + 1)%N
           else if (r =? 512)%N && N.odd q then (q + 1)%N
           else q in
  decimal_N (h / 100) +:+ "." +:+
  digit (N.to_nat (h mod 100) / 10) +:+ digit (N.to_nat (h mod 100)).

(** [f"{size / 1024:.2f}"] for a file size in bytes. *)
Definition format_kb (size : N) : exn + string :=
  match div_1024 size with
  | inl e => inl e
  | inr d => inr (format_2f d)
  end.

(** [generate()], run at a moment when the clock reads [now], with a library
    whose [build] reports the size of the file it wrote. *)
Definition generate (lib : Collaborator) (now : datetime)
    (self : TechnicalReportGenerator) (p : Process)
  : (exn + string) * TechnicalReportGenerator * Process :=
  match print ("Generando reporte técnico especializado: " +:+ filename self) p with
  | inl e => (inl e, self, p)
  | inr p =>
    match (add_cover_page now ;;
           add_executive_summary ;;
           add_technical_analysis ;;
           add_optimization_strategies ;;
           add_implementation_plan ;;
           add_roi_analysis ;;
           add_conclusions)%gen self with
    | (inl e, self) => (inl e, self, p)
    | (inr _, self) =>
      let res := build lib (doc self) (story self) in
      let p := record_build (doc self) (story self) p in
      let self := set_story self (remaining res) in
      match outcome res with
      | inl e => (inl e, self, p)
      | inr size =>
        match print ("✅ Reporte generado exitosamente: " +:+ filename self) p with
        | inl e => (inl e, self, p)
        | inr p =>
          match getsize (filename self) size p with
          | inl e => (inl e, self, p)
          | inr n =>
            match format_kb n with
            | inl e => (inl e, self, p)
            | inr kb =>
              match print ("📄 Tamaño: " +:+ kb +:+ " KB") p with
              | inl e => (inl e, self, p)
              | inr p => (inr (filename self), self, p)
              end
            end
          end
        end
      end
    end
  end.

(** The [__main__] block. *)
Definition main (lib : Collaborator) (now : datetime) (p : Process)
  : (exn + string) * Process :=
  match __init__ lib default_filename with
  | inl e => (inl e, p)
  | inr generator =>
    let '(r, _, p) := generate lib now generator p in (r, p)
  end.


(** ** The sections and the names they use *)

Inductive SectionId : Type :=
| Cover
| ExecutiveSummary
| TechnicalAnalysis
| OptimizationStrategies
| ImplementationPlan
| RoiAnalysis
| Conclusions.

(** The method that builds a section; only the cover page reads the clock. *)
Definition builder (now : datetime) (id : SectionId) : Gen unit :=
  match id with
  | Cover => add_cover_page now
  | ExecutiveSummary => add_executive_summary
  | TechnicalAnalysis => add_technical_analysis
  | OptimizationStrategies => add_optimization_strategies
  | ImplementationPlan => add_implementation_plan
  | RoiAnalysis => add_roi_analysis
  | Conclusions => add_conclusions
  end.

(** The order in which [generate] calls the builders. *)
Definition generate_order : list SectionId :=
  [Cover; ExecutiveSummary; TechnicalAnalysis; OptimizationStrategies;
   ImplementationPlan; RoiAnalysis; Conclusions].

(** The keys the builders look up in [self.styles]. *)
Definition referenced_names : list string :=
  ["CustomTitle"; "CustomSubtitle"; "Section"; "Subsection"; "Highlight";
   "Metric"; "BodyText"; "Code"].

(** The names [_setup_custom_styles] registers, in order. *)
Definition custom_names : list string :=
  ["CustomTitle"; "CustomSubtitle"; "Section"; "Subsection"; "CustomCode";
   "Highlight"; "Metric"].

(** The keys [_setup_custom_styles] looks up for parents. *)
Definition parent_names : list string :=
  ["Heading1"; "Heading2"; "Heading3"; "Normal"; "BodyText"].

(** The flowables a method call added at the end of the story. *)
Definition appended {A} (m : Gen A) (g : TechnicalReportGenerator) : list Flowable :=
  drop (length (story g)) (story (m g).2).

Definition tables_of (st : list Flowable) : list TableObj :=
  omap (fun f => match f with TableF t => Some t | _ => None end) st.

(** A flowable without the style object it points to. *)
Inductive Shape : Type :=
| SParagraph (text : string)
| SSpacer (width height : number)
| SPageBreak
| STable (t : TableObj).

Definition shape (f : Flowable) : Shape :=
  match f with
  | Paragraph text _ => SParagraph text
  | Spacer w h => SSpacer w h
  | PageBreak => SPageBreak
  | TableF t => STable t
  end.



(** ** Instances of the collaborator

    Used to run the script on concrete inputs. *)

(** A sheet with the names and aliases of the library's sample style sheet;
    the attributes are abridged. *)
Definition sample_defaults : gmap string Value :=
  list_to_map [("fontName", VStr "Helvetica"); ("fontSize", VInt 10);
               ("leading", VInt 12); ("leftIndent", VInt 0);
               ("rightIndent", VInt 0); ("firstLineIndent", VInt 0);
               ("alignment", TA_LEFT); ("spaceBefore", VInt 0);
               ("spaceAfter", VInt 0); ("textColor", VColor black)].

Definition sample_Normal : ParagraphStyle :=
  PropertySet "Normal" None
    (list_to_map [("fontName", VStr "Helvetica"); ("fontSize", VInt 10);
                  ("leading", VInt 12)] ∪ sample_defaults).

Definition sample_style (name : string) (parent : ParagraphStyle)
    (kw : list (string * Value)) : ParagraphStyle :=
  new_ParagraphStyle sample_defaults name parent kw.

Definition sample_BodyText : ParagraphStyle :=
  sample_style "BodyText" sample_Normal [("spaceBefore", VInt 6)].

Definition sample_Heading (n : string) (font : string) (size : Z)
    (leading : number) (before after : Z) : ParagraphStyle :=
  sample_style ("Heading" +:+ n) sample_Normal
    [("fontName", VStr font); ("fontSize", VInt size); ("leading", VNum leading);
     ("spaceBefore", VInt before); ("spaceAfter", VInt after)].

Definition sample_named : list ParagraphStyle :=
  [ sample_Normal;
    sample_BodyText;
    sample_style "Italic" sample_BodyText [("fontName", VStr "Helvetica-Oblique")];
    sample_Heading "1" "Helvetica-Bold" 18 (PyInt 22) 0 6;
    sample_style "Title" sample_Normal
      [("fontName", VStr "Helvetica-Bold"); ("fontSize", VInt 18);
       ("leading", VInt 22); ("alignment", TA_CENTER); ("spaceAfter", VInt 6)];
    sample_Heading "2" "Helvetica-Bold" 14 (PyInt 18) 12 6;
    sample_Heading "3" "Helvetica-BoldOblique" 12 (PyInt 14) 12 6;
    sample_Heading "4" "Helvetica-BoldOblique" 10 (PyInt 12) 10 4;
    sample_Heading "5" "Helvetica-Bold" 9 (PyFloat 10.8) 8 4;
    sample_Heading "6" "Helvetica-Bold" 7 (PyFloat 8.4) 6 2;
    sample_style "Bullet" sample_Normal
      [("firstLineIndent", VInt 0); ("spaceBefore", VInt 3)];
    sample_style "Definition" sample_Normal
      [("firstLineIndent", VInt 0); ("leftIndent", VInt 36);
       ("spaceBefore", VInt 6)];
    sample_style "Code" sample_Normal
      [("fontName", VStr "Courier"); ("fontSize", VInt 8);
       ("leading", VNum (PyFloat 8.8)); ("firstLineIndent", VInt 0);
       ("leftIndent", VInt 36)];
    sample_style "UnorderedList" sample_Normal [];
    sample_style "OrderedList" sample_Normal [] ].

Definition sample_aliases : list (string * string) :=
  [("h1", "Heading1"); ("title", "Title"); ("h2", "Heading2");
   ("h3", "Heading3"); ("h4", "Heading4"); ("h5", "Heading5");
   ("h6", "Heading6"); ("bu", "Bullet"); ("df", "Definition");
   ("ul", "UnorderedList"); ("ol", "OrderedList")].

Definition sample_sheet : StyleSheet1 :=
  let names : gmap string ParagraphStyle :=
    list_to_map (map (fun s => (style_name s, s)) sample_named) in
  {| byName := names;
     byAlias := list_to_map
       (omap (fun '(a, n) => pair a <$> names !! n) sample_aliases) |}.

(** A library whose [build] lays the story out and writes a file whose size
    grows with the number of flowables.  As reportlab's, it takes every
    flowable out of the list as it lays it out. *)
Definition draining_library : Collaborator :=
  {| defaults := sample_defaults;
     getSampleStyleSheet := sample_sheet;
     new_template := fun _ => None;
     build := fun _ st =>
       {| outcome := inr (1024 * N.of_nat (length st))%N; remaining := [] |} |}.

(** A library that accepts every file name when the template is made and
    fails when [build] comes to write to a directory that does not exist. *)
Definition unwritable : string := "/no/such/directory/report.pdf".

Definition readonly_library : Collaborator :=
  {| defaults := sample_defaults;
     getSampleStyleSheet := sample_sheet;
     new_template := fun _ => None;
     build := fun d st =>
       if String.eqb (doc_filename d) unwritable
       then {| outcome := inl (Exn "FileNotFoundError" unwritable); remaining := [] |}
       else {| outcome := inr (1024 * N.of_nat (length st))%N; remaining := [] |} |}.

(** A console that encodes every text, as one in UTF-8 does, with a file
    system that answers. *)
Definition console : Process :=
  {| stdout := [];
     encode_error := fun _ => None;
     getsize_error := fun _ => None;
     build_calls := [] |}.

(** *** A console in Latin-1

    A text of the script is kept as its bytes in UTF-8. *)

(** The code points of a text. *)
Fixpoint code_points_go (cur : option N) (s : string) : list N :=
  match s with
  | EmptyString => match cur with Some c => [c] | None => [] end
  | String a s' =>
    let b := Ascii.N_of_ascii a in
    if (128 <=? b)%N && (b <? 192)%N
    then code_points_go (option_map (fun c => c * 64 + (b - 128))%N cur) s'
    else
      let lead := if (b <? 128)%N then b
                  else if (b <? 224)%N then (b - 192)%N
                  else if (b <? 240)%N then (b - 224)%N
                  else (b - 240)%N in
      match cur with Some c => [c] | None => [] end ++ code_points_go (Some lead) s'
  end.

Definition code_points (s : string) : list N := code_points_go None s.

Definition hex_digit (n : N) : string :=
  String (Ascii.ascii_of_N (if (n <? 10)%N then 48 + n else 87 + n)%N) EmptyString.

Fixpoint hex (width : nat) (n : N) : string :=
  match width with
  | O => EmptyString
  | S w => hex w (n / 16)%N +:+ hex_digit (n mod 16)%N
  end.

(** How Python writes a character above Latin-1 in the message of an
    exception: four digits, or eight beyond the basic plane. *)
Definition escaped (c : N) : string :=
  if (c <? 65536)%N then "\u" +:+ hex 4 c else "\U" +:+ hex 8 c.

(** The number of characters above 255 at the head of a text. *)
Fixpoint run_above (cps : list N) : nat :=
  match cps with
  | c :: rest => if (256 <=? c)%N then S (run_above rest) else O
  | [] => O
  end.

(** The first character above 255, its position, and the number of such
    characters that follow it directly. *)
Fixpoint first_above (pos : nat) (cps : list N) : option (N * nat * nat) :=
  match cps with
  | [] => None
  | c :: rest =>
    if (c <? 256)%N then first_above (S pos) rest
    else Some (c, pos, run_above rest)
  end.

(** What [text.encode('latin-1')] raises, if anything: the first run of
    characters above 255 is named, by its character when it is one and by
    its positions otherwise. *)
Definition latin1_error (text : string) : option exn :=
  match first_above 0 (code_points text) with
  | None => None
  | Some (c, pos, more) =>
    Some (Exn "UnicodeEncodeError"
      (match more with
       | O => "'latin-1' codec can't encode character '" +:+ escaped c +:+
              "' in position " +:+ decimal pos
       | S _ => "'latin-1' codec can't encode characters in position " +:+
                decimal pos +:+ "-" +:+ decimal (pos + more)
       end +:+ ": ordinal not in range(256)"))
  end.

Definition latin1_console : Process :=
  {| stdout := [];
     encode_error := latin1_error;
     getsize_error := fun _ => None;
     build_calls := [] |}.

Definition nov_4 : datetime := {| dt_year := 2026; dt_month := November; dt_day := 4 |}.
Definition nov_5 : datetime := {| dt_year := 2026; dt_month := November; dt_day := 5 |}.

(** A generator with the given registry and nothing else. *)
Definition blank (sh : StyleSheet1) : TechnicalReportGenerator :=
  {| filename := "";
     doc := mkDoc "" letter (PyInt 0) (PyInt 0) (PyInt 0) (PyInt 0);
     styles := sh;
     story := [] |}.

(** What a section adds to the story under a given registry and date. *)
Definition contribution (sh : StyleSheet1) (now : datetime) (id : SectionId)
  : list Flowable :=
  story (builder now id (blank sh)).2.

(** The generator the constructor returns, when it returns one. *)
Definition generator_at (lib : Collaborator) (f : string) : TechnicalReportGenerator :=
  match __init__ lib f with
  | inr g => g
  | inl _ => blank (getSampleStyleSheet lib)
  end.

(** The generator the [__main__] block constructs. *)
Definition report_generator (lib : Collaborator) : TechnicalReportGenerator :=
  generator_at lib default_filename.

(** The number of flowables of each section. *)
Definition block_count (id : SectionId) : nat :=
  match id with
  | Cover => 8
  | ExecutiveSummary => 30
  | TechnicalAnalysis => 22
  | OptimizationStrategies => 26
  | ImplementationPlan => 50
  | RoiAnalysis => 19
  | Conclusions => 34
  end.

(** The tables of each section, in the order they are appended. *)
Definition section_tables (id : SectionId) : list TableObj :=
  match id with
  | Cover => [summary_table]
  | ExecutiveSummary => [impact_table]
  | TechnicalAnalysis => [stack_table; scenarios_table]
  | OptimizationStrategies => []
  | ImplementationPlan => [timeline_table]
  | RoiAnalysis => [costs_table; roi_table]
  | Conclusions => []
  end.

(** The row lists the builders declare, in the order of the report. *)
Definition declared_rows : list (list (list string)) :=
  [summary_data; impact_data; stack_data; scenarios_data; timeline_data;
   costs_data; roi_data].

(** ** Judgments on methods *)

(** Under registry [sh] the method returns [r] and its whole effect is to put
    [blocks] at the end of the story. *)
Definition appends {A} (sh : StyleSheet1) (m : Gen A) (r : exn + A)
    (blocks : list Flowable) : Prop :=
  forall g, styles g = sh -> m g = (r, set_story g (story g ++ blocks)).

(** The style of a paragraph is an entry of the registry. *)
Definition from_registry (sh : StyleSheet1) (f : Flowable) : Prop :=
  match f with
  | Paragraph _ s => exists key, getitem sh key = Some s
  | _ => True
  end.

(** The method only appends, what it appends and returns depends on the
    registry alone, the paragraphs it appends take their styles from the
    registry, and a value it returns satisfies [post]. *)
Definition sound {A} (sh : StyleSheet1) (m : Gen A) (post : A -> Prop) : Prop :=
  exists r blocks,
    appends sh m r blocks /\
    Forall (from_registry sh) blocks /\
    forall a, r = inr a -> post a.

(** Every key the builders look up is in the registry. *)
Definition resolves (sh : StyleSheet1) : Prop :=
  Forall (fun key => is_Some (getitem sh key)) referenced_names.

(** What initialisation needs of the sample sheet: the parents and ['Code']
    are there, and the names to register are free. *)
Definition sample_ok (sh : StyleSheet1) : Prop :=
  Forall (fun key => is_Some (getitem sh key)) (parent_names ++ ["Code"]) /\
  Forall (fun key => byName sh !! key = None /\ byAlias sh !! key = None)
    custom_names.

(** [sh] is [sample] with a style registered under each of [names] and
    nothing else changed. *)
Definition Registered (sample : StyleSheet1) (names : list string)
    (sh : StyleSheet1) : Prop :=
  byAlias sh = byAlias sample /\
  (forall key, key ∉ names -> byName sh !! key = byName sample !! key) /\
  (forall key, key ∈ names ->
     exists s, byName sh !! key = Some s /\ style_name s = key).

(** Two registries make the method return and append the same. *)
Definition agrees {A} (sh1 sh2 : StyleSheet1) (m : Gen A) : Prop :=
  exists r blocks, appends sh1 m r blocks /\ appends sh2 m r blocks.

(** A sequence of builder calls, each at its own moment. *)
Definition run_calls (calls : list (datetime * SectionId)) : Gen unit :=
  for_each calls (fun c => builder c.1 c.2).

(** The seven calls of [generate], as written there. *)
Definition all_sections (now : datetime) : Gen unit :=
  (add_cover_page now ;;
   add_executive_summary ;;
   add_technical_analysis ;;
   add_optimization_strategies ;;
   add_implementation_plan ;;
   add_roi_analysis ;;
   add_conclusions)%gen.

(** The story [generate] hands to [build] when it starts from [story g]. *)
Definition assembled (g : TechnicalReportGenerator) (now : datetime) : list Flowable :=
  story g ++ flat_map (contribution (styles g) now) generate_order.

(** The line [generate] prints first. *)
Definition start_message (g : TechnicalReportGenerator) : string :=
  "Generando reporte técnico especializado: " +:+ filename g.

(** The two lines it prints after [build] returned. *)
Definition success_message (g : TechnicalReportGenerator) : string :=
  "✅ Reporte generado exitosamente: " +:+ filename g.

Definition size_message (kb : string) : string :=
  "📄 Tamaño: " +:+ kb +:+ " KB".

(** The statements of [generate] that follow [build], when [build] returned
    with a file of [size] bytes: what [generate] returns or raises, and the
    process it leaves. *)
Definition report (g : TechnicalReportGenerator) (size : N) (p : Process)
  : (exn + string) * Process :=
  match print (success_message g) p with
  | inl e => (inl e, p)
  | inr p1 =>
    match getsize (filename g) size p1 with
    | inl e => (inl e, p1)
    | inr n =>
      match format_kb n with
      | inl e => (inl e, p1)
      | inr kb =>
        match print (size_message kb) p1 with
        | inl e => (inl e, p1)
        | inr p2 => (inr (filename g), p2)
        end
      end
    end
  end.

(** Why these statements raise [e], when they do: the console refuses the
    line of success; or the operating system refuses to give the size of the
    file; or the division overflows; or the console refuses the line with the
    size. *)
Definition report_fails (g : TechnicalReportGenerator) (size : N) (p : Process)
    (e : exn) : Prop :=
  encode_error p (success_message g) = Some e \/
  encode_error p (success_message g) = None /\
  (getsize_error p (filename g) = Some e \/
   getsize_error p (filename g) = None /\
   (format_kb size = inl e \/
    exists kb, format_kb size = inr kb /\
               encode_error p (size_message kb) = Some e)).

(** The calls of [build] a run of [generate] makes when its builders give the
    story [st]: one, unless the console refused the opening line, in which
    case [generate] stopped before the first builder. *)
Definition handed_over (g : TechnicalReportGenerator) (p : Process)
    (st : list Flowable) : list (SimpleDocTemplate * list Flowable) :=
  match encode_error p (start_message g) with
  | None => [(doc g, st)]
  | Some _ => []
  end.

(** [resolves] and [sample_ok] as tests. *)
Definition resolvesb (sh : StyleSheet1) : bool :=
  forallb (fun key => bool_decide (is_Some (getitem sh key))) referenced_names.

Definition sample_okb (sh : StyleSheet1) : bool :=
  forallb (fun key => bool_decide (is_Some (getitem sh key)))
    (parent_names ++ ["Code"]) &&
  forallb (fun key => bool_decide (byName sh !! key = None) &&
                      bool_decide (byAlias sh !! key = None)) custom_names.

(** The tables of the report, in the order of the story. *)
Definition report_tables : list TableObj :=
  flat_map section_tables generate_order.

(** ** The registrations of [_setup_custom_styles] as a table

    Name, key of the parent and keywords of each [self.styles.add(...)], in
    the order of the source. *)
Definition registrations : list (string * string * list (string * Value)) :=
  [ ("CustomTitle", "Heading1",
     [("fontSize", VInt 24);
      ("textColor", VColor (HexColor "#1e3a8a"));
      ("spaceAfter", VInt 30);
      ("alignment", TA_CENTER);
      ("fontName", VStr "Helvetica-Bold")]);
    ("CustomSubtitle", "Heading2",
     [("fontSize", VInt 16);
      ("textColor", VColor (HexColor "#3b82f6"));
      ("spaceAfter", VInt 12);
      ("spaceBefore", VInt 12);
      ("fontName", VStr "Helvetica-Bold")]);
    ("Section", "Heading2",
     [("fontSize", VInt 14);
      ("textColor", VColor (HexColor "#1e40af"));
      ("spaceAfter", VInt 10);
      ("spaceBefore", VInt 20);
      ("fontName", VStr "Helvetica-Bold");
      ("borderColor", VColor (HexColor "#3b82f6"));
      ("borderWidth", VInt 0);
      ("borderPadding", VInt 5)]);
    ("Subsection", "Heading3",
     [("fontSize", VInt 12);
      ("textColor", VColor (HexColor "#2563eb"));
      ("spaceAfter", VInt 8);
      ("spaceBefore", VInt 10);
      ("fontName", VStr "Helvetica-Bold")]);
    ("CustomCode", "Normal",
     [("fontSize", VInt 9);
      ("fontName", VStr "Courier");
      ("textColor", VColor (HexColor "#1f2937"));
      ("leftIndent", VInt 20);
      ("rightIndent", VInt 20);
      ("spaceAfter", VInt 10);
      ("spaceBefore", VInt 10);
      ("backColor", VColor (HexColor "#f3f4f6"))]);
    ("Highlight", "BodyText",
     [("fontSize", VInt 11);
      ("textColor", VColor (HexColor "#dc2626"));
      ("fontName", VStr "Helvetica-Bold")]);
    ("Metric", "BodyText",
     [("fontSize", VInt 10);
      ("textColor", VColor (HexColor "#059669"));
      ("fontName", VStr "Helvetica-Bold");
      ("leftIndent", VInt 15)]) ].

Definition reg_name (r : string * string * list (string * Value)) : string := r.1.1.
Definition reg_parent (r : string * string * list (string * Value)) : string := r.1.2.
Definition reg_kw (r : string * string * list (string * Value)) : list (string * Value) := r.2.

(** One [self.styles.add(ParagraphStyle(name=..., parent=self.styles[...], ...))]. *)
Definition register (defaults : gmap string Value)
    (r : string * string * list (string * Value)) : Gen unit :=
  (let* parent := styles_getitem (reg_parent r) in
   styles_add (new_ParagraphStyle defaults (reg_name r) parent (reg_kw r)))%gen.

(** The exception of a failed lookup of [key]. *)
Definition not_found (key : string) : exn :=
  KeyError ("Style '" +:+ key +:+ "' not found in stylesheet").

(** What the sample sheet must offer one registration: the parent, and the
    name free, as a name and as an alias. *)
Definition registration_ok (sample : StyleSheet1)
    (r : string * string * list (string * Value)) : Prop :=
  is_Some (getitem sample (reg_parent r)) /\
  byName sample !! reg_name r = None /\
  byAlias sample !! reg_name r = None.

(** [sh] is [sample] with exactly the registrations [rs] made. *)
Definition RegisteredAs (defaults : gmap string Value) (sample : StyleSheet1)
    (rs : list (string * string * list (string * Value))) (sh : StyleSheet1) : Prop :=
  byAlias sh = byAlias sample /\
  (forall key, key ∉ map reg_name rs -> byName sh !! key = byName sample !! key) /\
  Forall (fun r => exists parent,
            getitem sample (reg_parent r) = Some parent /\
            byName sh !! reg_name r =
              Some (new_ParagraphStyle defaults (reg_name r) parent (reg_kw r))) rs.

(** The value of attribute [key] of a style made by [ParagraphStyle(name,
    parent, **kw)]: the keyword, else the parent's, else the class default. *)
Definition derived_attr (defaults : gmap string Value) (parent : ParagraphStyle)
    (kw : list (string * Value)) (key : string) : option Value :=
  match (list_to_map kw : gmap string Value) !! key with
  | Some v => Some v
  | None =>
    match style_attrs parent !! key with
    | Some v => Some v
    | None => defaults !! key
    end
  end.

(** The only class of exception the generator's own lookups and
    registrations raise. *)
Definition is_KeyError (e : exn) : Prop :=
  match e with Exn cls _ => cls = "KeyError" end.

(** ** The order in which [generate] first looks each style up

    With the number of flowables appended before that lookup. *)
Definition first_lookups : list (string * nat) :=
  [("CustomTitle", 0); ("CustomSubtitle", 2); ("BodyText", 6); ("Section", 8);
   ("Subsection", 11); ("Highlight", 58); ("Code", 66); ("Metric", 96)].

(** The first style, in that order, that the registry lacks. *)
Definition first_missing (sh : StyleSheet1) : option (string * nat) :=
  List.find (fun kn : string * nat =>
               match getitem sh kn.1 with None => true | Some _ => false end)
            first_lookups.

(** What the constructor needs of the sample sheet: the five parents, and the
    seven names free. *)
Definition registrable (sample : StyleSheet1) : Prop :=
  Forall (fun key => is_Some (getitem sample key)) parent_names /\
  Forall (fun key => byName sample !! key = None /\ byAlias sample !! key = None)
    custom_names.

Definition registrableb (sample : StyleSheet1) : bool :=
  forallb (fun key => bool_decide (is_Some (getitem sample key))) parent_names &&
  forallb (fun key => bool_decide (byName sample !! key = None) &&
                      bool_decide (byAlias sample !! key = None)) custom_names.

(** A sample sheet without ['Code']: the constructor accepts it. *)
Definition codeless_sheet : StyleSheet1 :=
  {| byName := delete "Code" (byName sample_sheet); byAlias := byAlias sample_sheet |}.

Definition codeless_library : Collaborator :=
  {| defaults := sample_defaults;
     getSampleStyleSheet := codeless_sheet;
     new_template := fun _ => None;
     build := fun _ st =>
       {| outcome := inr (1024 * N.of_nat (length st))%N; remaining := [] |} |}.

(** Under registry [sh] the method leaves the registry as it is, and when it
    raises, it raises the [KeyError] of a referenced name that the registry
    lacks. *)
Definition raises_missing {A} (sh : StyleSheet1) (m : Gen A) : Prop :=
  forall g, styles g = sh ->
    styles (m g).2 = sh /\
    forall e, (m g).1 = inl e ->
      exists key, key ∈ referenced_names /\ getitem sh key = None /\ e = not_found key.

(** A library whose sample sheet has no style at all. *)
Definition bare_library : Collaborator :=
  {| defaults := sample_defaults;
     getSampleStyleSheet := mkStyleSheet1 ∅ ∅;
     new_template := fun _ => None;
     build := fun _ st =>
       {| outcome := inr (1024 * N.of_nat (length st))%N; remaining := [] |} |}.

(** Reading a number back from its decimal digits. *)
Fixpoint read_digits (acc : nat) (s : string) : nat :=
  match s with
  | EmptyString => acc
  | String c s' => read_digits (10 * acc + (Ascii.nat_of_ascii c - 48)) s'
  end.

(** ** Tables on the page *)

(** A length in points. *)
Definition points (n : number) : Q :=
  match n with
  | PyInt z => inject_Z z
  | PyFloat q => q
  end.

(** The width of the frame of a template: the page between the left and the
    right margin, less the padding of six points the library keeps on each
    side of a frame. *)
Definition frame_padding : Q := 6.

Definition frame_width (d : SimpleDocTemplate) : Q :=
  points (pagesize d).1 - points (leftMargin d) - points (rightMargin d)
  - frame_padding - frame_padding.

(** The width a table asks for: the sum of its [colWidths]. *)
Definition table_width (t : TableObj) : Q :=
  foldr Qplus 0%Q (map points (_colWidths t)).

(** A cell coordinate of a style command, among [n] columns or rows: a
    negative one counts from the end, as in the library. *)
Definition cell_index (n : nat) (i : Z) : Z :=
  if (i <? 0)%Z then (Z.of_nat n + i)%Z else i.

(** The command [c] addresses a block of cells of the table [t]: start and
    stop, as [(column, row)], are cells of the table, start before stop. *)
Definition cmd_inside (t : TableObj) (c : TableCmd) : Prop :=
  let c0 := cell_index (_ncols t) (cmd_start c).1 in
  let r0 := cell_index (_nrows t) (cmd_start c).2 in
  let c1 := cell_index (_ncols t) (cmd_stop c).1 in
  let r1 := cell_index (_nrows t) (cmd_stop c).2 in
  (0 <= c0 <= c1)%Z /\ (c1 < Z.of_nat (_ncols t))%Z /\
  (0 <= r0 <= r1)%Z /\ (r1 < Z.of_nat (_nrows t))%Z.

(** A table as the library expects one: every row has the table's number of
    columns, there is one width per column, every style command addresses
    cells of the table, and the table is no wider than [width]. *)
Definition well_formed (width : Q) (t : TableObj) : Prop :=
  Forall (fun row => length row = _ncols t) (_cellvalues t) /\
  length (_colWidths t) = _ncols t /\
  Forall (cmd_inside t) (_cmds t) /\
  (table_width t <= width)%Q.

(** ** The console *)

(** The lines of a run of [generate] that returned, for a size printed as
    [kb]. *)
Definition success_lines (g : TechnicalReportGenerator) (kb : string) : list string :=
  [ start_message g; success_message g; size_message kb ].





(** ** Pages *)

(** A story cut at its page breaks: the flowables before the first
    [PageBreak], and the groups that follow each [PageBreak]. *)
Fixpoint split_pages (st : list Flowable) : list Flowable * list (list Flowable) :=
  match st with
  | [] => ([], [])
  | PageBreak :: st' => let '(pg, rest) := split_pages st' in ([], pg :: rest)
  | f :: st' => let '(pg, rest) := split_pages st' in (f :: pg, rest)
  end.

Definition no_break (pg : list Flowable) : bool :=
  forallb (fun f => match f with PageBreak => false | _ => true end) pg.

(** The headings of the sections that follow the cover page. *)
Definition section_titles : list string :=
  [ "RESUMEN EJECUTIVO";
    "ANÁLISIS TÉCNICO DETALLADO";
    "ESTRATEGIAS DE OPTIMIZACIÓN";
    "PLAN DE IMPLEMENTACIÓN";
    "ANÁLISIS DE ROI Y MÉTRICAS FINANCIERAS";
    "CONCLUSIONES Y PRÓXIMOS PASOS" ].

(** * Properties *)

(** ** The judgments are closed under the constructs of the methods *)

Lemma set_story_id g : set_story g (story g) = g.
Proof. by destruct g. Qed.

Lemma set_story_set_story g st st' :
  set_story (set_story g st) st' = set_story g st'.
Proof. reflexivity. Qed.

Lemma bind_inr {A B} (m : Gen A) (k : A -> Gen B) g a g' :
  m g = (inr a, g') -> bind m k g = k a g'.
Proof. intros H. unfold bind. by rewrite H. Qed.

Section Judgments.

Context (sh : StyleSheet1).

Lemma appends_ret {A} (a : A) : appends sh (ret a) (inr a) [].
Proof. intros g _. unfold ret. by rewrite app_nil_r, set_story_id. Qed.

Lemma appends_append f : appends sh (story_append f) (inr tt) [f].
Proof. by intros g _. Qed.

Lemma appends_getitem_Some key s :
  getitem sh key = Some s -> appends sh (styles_getitem key) (inr s) [].
Proof.
  intros Hs g <-. unfold styles_getitem. rewrite Hs.
  by rewrite app_nil_r, set_story_id.
Qed.

Lemma appends_getitem_None key :
  getitem sh key = None ->
  appends sh (styles_getitem key)
    (inl (KeyError ("Style '" +:+ key +:+ "' not found in stylesheet"))) [].
Proof.
  intros Hs g <-. unfold styles_getitem. rewrite Hs.
  by rewrite app_nil_r, set_story_id.
Qed.

Lemma appends_bind {A B} (m : Gen A) (k : A -> Gen B) a b1 r b2 :
  appends sh m (inr a) b1 ->
  appends sh (k a) r b2 ->
  appends sh (bind m k) r (b1 ++ b2).
Proof.
  intros Hm Hk g Hg. unfold bind. rewrite (Hm g Hg).
  rewrite (Hk (set_story g (story g ++ b1)) Hg). simpl.
  by rewrite set_story_set_story, app_assoc.
Qed.

Lemma appends_bind_raise {A B} (m : Gen A) (k : A -> Gen B) e b1 :
  appends sh m (inl e) b1 ->
  appends sh (bind m k) (inl e) b1.
Proof. intros Hm g Hg. unfold bind. by rewrite (Hm g Hg). Qed.

Lemma appends_for_each {A} (xs : list A) (body : A -> Gen unit) fb :
  (forall x, appends sh (body x) (inr tt) (fb x)) ->
  appends sh (for_each xs body) (inr tt) (concat (map fb xs)).
Proof.
  intros Hbody. induction xs as [|x xs IH]; simpl.
  - apply appends_ret.
  - eapply appends_bind; [apply Hbody | apply IH].
Qed.

(** What [appends] says of a run on a given generator. *)
Lemma appends_appended {A} (m : Gen A) r b g :
  appends sh m r b -> styles g = sh -> (m g).1 = r /\ appended m g = b.
Proof.
  intros H Hg. unfold appended. rewrite (H g Hg). simpl. split; [done|].
  by rewrite drop_app_length.
Qed.

Lemma sound_ret {A} (a : A) (post : A -> Prop) : post a -> sound sh (ret a) post.
Proof.
  intros Ha. exists (inr a), []. split; [apply appends_ret|].
  split; [constructor|]. by intros ? [= <-].
Qed.

Lemma sound_getitem key :
  sound sh (styles_getitem key) (fun s => getitem sh key = Some s).
Proof.
  destruct (getitem sh key) as [s|] eqn:Hs.
  - exists (inr s), []. split; [by apply appends_getitem_Some|].
    split; [constructor|]. by intros ? [= <-].
  - eexists _, []. split; [by apply appends_getitem_None|].
    split; [constructor|]. by intros ? [=].
Qed.

Lemma sound_append f :
  from_registry sh f -> sound sh (story_append f) (fun _ => True).
Proof.
  intros Hf. exists (inr tt), [f]. split; [apply appends_append|].
  split; [by constructor|done].
Qed.

Lemma sound_bind {A B} (m : Gen A) (k : A -> Gen B) P Q :
  sound sh m P ->
  (forall a, P a -> sound sh (k a) Q) ->
  sound sh (bind m k) Q.
Proof.
  intros (r & b1 & Hm & Hb1 & HP) Hk. destruct r as [e|a].
  - exists (inl e), b1. split; [by apply appends_bind_raise|].
    split; [done|]. by intros ? [=].
  - destruct (Hk a (HP a eq_refl)) as (r & b2 & Hka & Hb2 & HQ).
    exists r, (b1 ++ b2). split; [by eapply appends_bind|].
    split; [by apply Forall_app|done].
Qed.

Lemma sound_for_each {A} (xs : list A) (body : A -> Gen unit) :
  (forall x, sound sh (body x) (fun _ => True)) ->
  sound sh (for_each xs body) (fun _ => True).
Proof.
  intros Hbody. induction xs as [|x xs IH]; simpl.
  - by apply sound_ret.
  - eapply sound_bind; [apply Hbody | intros _ _; apply IH].
Qed.

End Judgments.

Section Agreement.

Context (sh1 sh2 : StyleSheet1).

Lemma agrees_ret {A} (a : A) : agrees sh1 sh2 (ret a).
Proof. exists (inr a), []. split; apply appends_ret. Qed.

Lemma agrees_append f : agrees sh1 sh2 (story_append f).
Proof. exists (inr tt), [f]. split; apply appends_append. Qed.

Lemma agrees_getitem key :
  getitem sh1 key = getitem sh2 key -> agrees sh1 sh2 (styles_getitem key).
Proof.
  intros H. destruct (getitem sh2 key) as [s|] eqn:Hs.
  - exists (inr s), []. split; by apply appends_getitem_Some.
  - eexists _, []. split; by apply appends_getitem_None.
Qed.

Lemma agrees_bind {A B} (m : Gen A) (k : A -> Gen B) :
  agrees sh1 sh2 m -> (forall a, agrees sh1 sh2 (k a)) -> agrees sh1 sh2 (bind m k).
Proof.
  intros (r & b1 & H1 & H2) Hk. destruct r as [e|a].
  - exists (inl e), b1. split; by apply appends_bind_raise.
  - destruct (Hk a) as (r & b2 & K1 & K2).
    exists r, (b1 ++ b2). split; by eapply appends_bind.
Qed.

Lemma agrees_for_each {A} (xs : list A) (body : A -> Gen unit) :
  (forall x, agrees sh1 sh2 (body x)) -> agrees sh1 sh2 (for_each xs body).
Proof.
  intros Hbody. induction xs as [|x xs IH]; simpl.
  - apply agrees_ret.
  - apply agrees_bind; [apply Hbody | intros _; apply IH].
Qed.

End Agreement.

(** One step of a derivation of [sound] along the code of a method. *)
Ltac sound_step :=
  cbv beta zeta;
  lazymatch goal with
  | |- sound _ (bind _ _) _ => eapply sound_bind; [|intros ? ?]
  | |- sound _ (styles_getitem _) _ => apply sound_getitem
  | |- sound _ (story_append _) _ => apply sound_append; cbv beta in *; simpl; eauto
  | |- sound _ (for_each _ _) _ => apply sound_for_each; intros ?
  end.

(** One step of a derivation of [appends] when the lookups succeed. *)
Ltac appends_step :=
  cbv beta zeta;
  lazymatch goal with
  | |- appends _ (bind _ _) _ _ => eapply appends_bind
  | |- appends _ (styles_getitem _) _ _ => eapply appends_getitem_Some; eassumption
  | |- appends _ (story_append _) _ _ => eapply appends_append
  | |- appends _ (for_each _ _) _ _ => eapply appends_for_each; intros ?
  end.

(** One step of a derivation of [agrees] when the two registries give the
    same answer for the keys in the context. *)
Ltac agrees_step :=
  cbv beta zeta;
  lazymatch goal with
  | |- agrees _ _ (bind _ _) => apply agrees_bind; [|intros ?]
  | |- agrees _ _ (styles_getitem _) => apply agrees_getitem; assumption
  | |- agrees _ _ (story_append _) => apply agrees_append
  | |- agrees _ _ (for_each _ _) => apply agrees_for_each; intros ?
  end.

(** Unfold the method that builds the section at hand. *)
Ltac unfold_builder :=
  unfold builder;
  first [ progress unfold add_cover_page
        | progress unfold add_executive_summary
        | progress unfold add_technical_analysis
        | progress unfold add_optimization_strategies
        | progress unfold add_implementation_plan
        | progress unfold add_roi_analysis
        | progress unfold add_conclusions ].

(** ** The section builders *)

(** In any state a builder only appends, and what it returns and appends is
    determined by the registry (and the date). *)
Lemma builder_sound sh now id : sound sh (builder now id) (fun _ => True).
Proof. destruct id; unfold_builder; repeat sound_step. Qed.

Lemma builder_run now id g :
  builder now id g =
    ((builder now id (blank (styles g))).1,
     set_story g (story g ++ contribution (styles g) now id)).
Proof.
  destruct (builder_sound (styles g) now id) as (r & b & Hb & _).
  unfold contribution. rewrite (Hb g eq_refl), (Hb (blank (styles g)) eq_refl).
  reflexivity.
Qed.

(** The builders read the registry at the eight referenced names only. *)
Lemma builder_agrees sh1 sh2 now id :
  Forall (fun key => getitem sh1 key = getitem sh2 key) referenced_names ->
  agrees sh1 sh2 (builder now id).
Proof.
  unfold referenced_names. intros H.
  repeat match goal with
         | H : Forall _ (_ :: _) |- _ =>
           apply Forall_cons_1 in H; destruct H as [? ?]
         end.
  destruct id; unfold_builder; repeat agrees_step.
Qed.

Lemma add_cover_page_date now1 now2 :
  strftime now1 = strftime now2 -> add_cover_page now1 = add_cover_page now2.
Proof. intros H. unfold add_cover_page, info_text. by rewrite H. Qed.

Lemma builder_date now1 now2 id :
  (id = Cover -> strftime now1 = strftime now2) ->
  builder now1 id = builder now2 id.
Proof. destruct id; try done. intros H. by apply add_cover_page_date, H. Qed.

Lemma resolves_lookups sh :
  resolves sh ->
  exists s1 s2 s3 s4 s5 s6 s7 s8,
    getitem sh "CustomTitle" = Some s1 /\ getitem sh "CustomSubtitle" = Some s2 /\
    getitem sh "Section" = Some s3 /\ getitem sh "Subsection" = Some s4 /\
    getitem sh "Highlight" = Some s5 /\ getitem sh "Metric" = Some s6 /\
    getitem sh "BodyText" = Some s7 /\ getitem sh "Code" = Some s8.
Proof.
  unfold resolves, referenced_names. intros H.
  repeat match goal with
         | H : Forall _ (_ :: _) |- _ =>
           apply Forall_cons_1 in H; destruct H as [[? ?] ?]
         end.
  do 8 eexists. repeat (split; [eassumption|]). eassumption.
Qed.

Lemma resolvesb_spec sh : resolvesb sh = true -> resolves sh.
Proof.
  unfold resolvesb, resolves. intros H. apply Forall_forall. intros key Hkey.
  rewrite forallb_forall in H.
  apply list_elem_of_In, H in Hkey. by apply bool_decide_eq_true in Hkey.
Qed.

(** *** When the registry has the styles looked up *)

Section Resolving.

Context (sh : StyleSheet1) (Hres : resolves sh).

(** Name the eight styles. *)
Ltac name_styles :=
  destruct (resolves_lookups sh Hres)
    as (s1 & s2 & s3 & s4 & s5 & s6 & s7 & s8 &
        H1 & H2 & H3 & H4 & H5 & H6 & H7 & H8).

(** Every builder returns normally; the number of flowables and the tables
    it appends are those of its section. *)
Lemma builder_total now id :
  exists blocks,
    appends sh (builder now id) (inr tt) blocks /\
    length blocks = block_count id /\
    tables_of blocks = section_tables id.
Proof.
  name_styles.
  destruct id; unfold_builder;
    (eexists; split; [repeat appends_step | split; reflexivity]).
Qed.

Lemma contribution_total now id :
  appends sh (builder now id) (inr tt) (contribution sh now id) /\
  length (contribution sh now id) = block_count id /\
  tables_of (contribution sh now id) = section_tables id.
Proof.
  destruct (builder_total now id) as (b & Hb & Hlen & Htab).
  unfold contribution. by rewrite (Hb (blank sh) eq_refl).
Qed.

Lemma length_contributions (calls : list (datetime * SectionId)) :
  length (flat_map (fun c => contribution sh c.1 c.2) calls) =
  sum_list (map (fun c => block_count c.2) calls).
Proof.
  induction calls as [|[now id] calls IH]; simpl; [done|].
  rewrite length_app, IH. f_equal. apply contribution_total.
Qed.

Lemma length_sections now ids :
  length (flat_map (contribution sh now) ids) = sum_list (map block_count ids).
Proof.
  induction ids as [|id ids IH]; simpl; [done|].
  rewrite length_app, IH. f_equal. apply contribution_total.
Qed.

Lemma tables_of_contributions now ids :
  tables_of (flat_map (contribution sh now) ids) = flat_map section_tables ids.
Proof.
  unfold tables_of. induction ids as [|id ids IH]; simpl; [done|].
  rewrite omap_app, IH. f_equal. apply contribution_total.
Qed.



(** The three code snippets are paragraphs in the style found under 'Code'. *)
Lemma strategies_code_style s now :
  getitem sh "Code" = Some s ->
  forall code, code ∈ [code1; code2; code3] ->
  Paragraph code s ∈ contribution sh now OptimizationStrategies.
Proof.
  intros Hs. name_styles.
  assert (s8 = s) as -> by congruence.
  assert (exists b, appends sh add_optimization_strategies (inr tt) b /\
                    Forall (fun code => Paragraph code s ∈ b) [code1; code2; code3])
    as (b & Hb & Hin).
  { unfold add_optimization_strategies. eexists. split; [repeat appends_step|].
    simpl. repeat (apply Forall_cons; split); [..|constructor];
      repeat first [apply list_elem_of_here | apply list_elem_of_further]. }
  intros code Hcode. unfold contribution, builder.
  rewrite (Hb (blank sh) eq_refl). simpl.
  by apply (proj1 (Forall_forall _ _) Hin).
Qed.

End Resolving.

Lemma builder_ok now id g :
  resolves (styles g) ->
  builder now id g =
    (inr tt, set_story g (story g ++ contribution (styles g) now id)).
Proof.
  intros Hres. by destruct (contribution_total (styles g) Hres now id) as [-> _].
Qed.

(** A run of a list of builder calls appends the contributions in order. *)
Lemma run_calls_ok (calls : list (datetime * SectionId)) g :
  resolves (styles g) ->
  run_calls calls g =
    (inr tt,
     set_story g (story g ++ flat_map (fun c => contribution (styles g) c.1 c.2) calls)).
Proof.
  unfold run_calls. revert g.
  induction calls as [|[now id] calls IH]; intros g Hres; simpl.
  - unfold ret. by rewrite app_nil_r, set_story_id.
  - unfold bind. rewrite (builder_ok now id g Hres).
    rewrite IH by done. simpl. by rewrite set_story_set_story, app_assoc.
Qed.


(** The seven calls written out in [generate] are the builders of
    [generate_order], one after the other. *)
Lemma all_sections_for_each now g :
  all_sections now g = run_calls (map (pair now) generate_order) g.
Proof.
  unfold all_sections, run_calls, generate_order. simpl. unfold bind, ret.
  repeat (match goal with
          | |- context [match ?m g with _ => _ end] => destruct (m g) as [[?|?] ?]
          | |- context [match ?m ?g' with _ => _ end] =>
            destruct (m g') as [[?|[]] ?]
          end; try reflexivity).
Qed.

Lemma all_sections_ok now g :
  resolves (styles g) ->
  all_sections now g = (inr tt, set_story g (assembled g now)).
Proof.
  intros Hres. rewrite all_sections_for_each, run_calls_ok by done.
  reflexivity.
Qed.

Lemma all_sections_sound sh now : sound sh (all_sections now) (fun _ => True).
Proof.
  unfold all_sections.
  eapply sound_bind; [apply (builder_sound sh now Cover) | intros _ _].
  eapply sound_bind; [apply (builder_sound sh now ExecutiveSummary) | intros _ _].
  eapply sound_bind; [apply (builder_sound sh now TechnicalAnalysis) | intros _ _].
  eapply sound_bind; [apply (builder_sound sh now OptimizationStrategies) | intros _ _].
  eapply sound_bind; [apply (builder_sound sh now ImplementationPlan) | intros _ _].
  eapply sound_bind; [apply (builder_sound sh now RoiAnalysis) | intros _ _].
  apply (builder_sound sh now Conclusions).
Qed.

Lemma length_assembled g now :
  resolves (styles g) -> length (assembled g now) = length (story g) + 189.
Proof.
  intros Hres. unfold assembled. rewrite length_app. f_equal.
  apply (length_sections (styles g) Hres now generate_order).
Qed.

Lemma tables_of_assembled g now :
  resolves (styles g) ->
  tables_of (assembled g now) = tables_of (story g) ++ report_tables.
Proof.
  intros Hres. unfold assembled, report_tables.
  rewrite <- (tables_of_contributions (styles g) Hres now).
  apply omap_app.
Qed.

(** ** Initialisation *)

Section Registration.

Context (sample : StyleSheet1).

Lemma Registered_refl : Registered sample [] sample.
Proof.
  split; [done|]. split; [done|]. intros key Hkey. by apply elem_of_nil in Hkey.
Qed.

Lemma getitem_Registered_notin names sh key :
  Registered sample names sh -> key ∉ names ->
  getitem sh key = getitem sample key.
Proof. intros (Ha & Hn & _) Hkey. unfold getitem. by rewrite Ha, Hn. Qed.

Lemma getitem_Registered_in names sh key :
  Registered sample names sh -> key ∈ names ->
  byAlias sample !! key = None ->
  exists s, getitem sh key = Some s /\ style_name s = key.
Proof.
  intros (Ha & _ & Hin) Hkey Hfree. destruct (Hin key Hkey) as (s & Hs & Hname).
  exists s. unfold getitem. by rewrite Ha, Hfree.
Qed.

(** One registration: look the parent up, derive the style, add it. *)
Lemma register_step d names g name pk kw :
  Registered sample names (styles g) ->
  pk ∉ names -> is_Some (getitem sample pk) ->
  name ∉ names ->
  byName sample !! name = None /\ byAlias sample !! name = None ->
  exists sh',
    bind (styles_getitem pk)
      (fun parent => styles_add (new_ParagraphStyle d name parent kw)) g
      = (inr tt, set_styles g sh') /\
    Registered sample (name :: names) sh'.
Proof.
  intros Hreg Hpk [p Hp] Hname [Hfn Hfa].
  pose proof Hreg as (Ha & Hn & Hin).
  unfold bind, styles_getitem.
  rewrite (getitem_Registered_notin _ _ _ Hreg Hpk), Hp.
  unfold styles_add, add. simpl style_name.
  rewrite (Hn name Hname), Hfn, Ha, Hfa.
  eexists. split; [reflexivity|]. simpl. split; [done|]. split.
  - intros key [Hne Hkey]%not_elem_of_cons. simpl.
    rewrite lookup_insert_ne by done. auto.
  - intros key [->|Hkey]%elem_of_cons; simpl.
    + eexists. by rewrite lookup_insert_eq.
    + destruct (decide (name = key)) as [->|Hne]; [done|].
      rewrite lookup_insert_ne by done. auto.
Qed.

Context (Hok : sample_ok sample).

Lemma sample_ok_parent key :
  key ∈ parent_names ++ ["Code"] -> is_Some (getitem sample key).
Proof. destruct Hok as [H _]. intros Hkey. by eapply Forall_forall in H. Qed.

Lemma sample_ok_free key :
  key ∈ custom_names ->
  byName sample !! key = None /\ byAlias sample !! key = None.
Proof.
  destruct Hok as [_ H]. intros Hkey.
  by eapply (proj1 (Forall_forall _ _) H) in Hkey.
Qed.

(** With the seven names registered, the eight names looked up resolve. *)
Lemma Registered_resolves sh :
  Registered sample (reverse custom_names) sh -> resolves sh.
Proof.
  intros Hreg. unfold resolves, referenced_names.
  assert (forall key, key ∈ custom_names -> is_Some (getitem sh key)) as Hcustom.
  { intros key Hkey.
    destruct (getitem_Registered_in _ _ key Hreg) as (s & -> & _); [| |done].
    - by apply elem_of_reverse.
    - by apply sample_ok_free. }
  assert (forall key, key ∈ parent_names ++ ["Code"] -> key ∉ custom_names ->
                      is_Some (getitem sh key)) as Hbuiltin.
  { intros key Hkey Hnot.
    rewrite (getitem_Registered_notin _ _ key Hreg).
    - by apply sample_ok_parent.
    - by rewrite elem_of_reverse. }
  repeat (apply Forall_cons; split);
    [ apply Hcustom; set_solver .. | apply Hbuiltin; set_solver
    | apply Hbuiltin; set_solver | constructor ].
Qed.

End Registration.

(** The conditions of one registration, for literal names. *)
Ltac register_conditions Hok :=
  first [ done
        | apply sample_ok_parent; [exact Hok | set_solver]
        | apply sample_ok_free; [exact Hok | set_solver]
        | set_solver ].

Lemma setup_custom_styles_ok d g :
  sample_ok (styles g) ->
  exists sh,
    _setup_custom_styles d g = (inr tt, set_styles g sh) /\
    Registered (styles g) (reverse custom_names) sh.
Proof.
  intros Hok. set (sample := styles g) in *. unfold _setup_custom_styles.
  pose proof (Registered_refl sample) as R0.
  assert (forall g0 sh0, styles (set_styles g0 sh0) = sh0) as Est by done.
  assert (forall g0 sh0 sh1, set_styles (set_styles g0 sh0) sh1 = set_styles g0 sh1)
    as Ess by done.
  destruct (register_step sample d [] g "CustomTitle" "Heading1"
              [("fontSize", VInt 24);
               ("textColor", VColor (HexColor "#1e3a8a"));
               ("spaceAfter", VInt 30);
               ("alignment", TA_CENTER);
               ("fontName", VStr "Helvetica-Bold")])
    as (sh1 & E1 & R1); [register_conditions Hok ..|].
  erewrite bind_inr by exact E1. clear E1.
  repeat lazymatch goal with
  | R : Registered sample ?names ?sh1
    |- context [bind (bind (styles_getitem ?pk)
                 (fun parent => styles_add (new_ParagraphStyle d ?name parent ?kw))) _
                 (set_styles g ?sh1)] =>
    let sh2 := fresh "sh" in let E := fresh "E" in let R2 := fresh "R" in
    destruct (register_step sample d names (set_styles g sh1) name pk kw)
      as (sh2 & E & R2); [by rewrite Est | register_conditions Hok ..|];
    erewrite bind_inr by exact E; clear E R; rewrite Ess in *
  end.
  lazymatch goal with
  | R : Registered sample ?names ?sh1 |- _ =>
    destruct (register_step sample d names (set_styles g sh1) "Metric" "BodyText"
                [("fontSize", VInt 10);
                 ("textColor", VColor (HexColor "#059669"));
                 ("fontName", VStr "Helvetica-Bold");
                 ("leftIndent", VInt 15)])
      as (sh7 & E7 & R7); [by rewrite Est | register_conditions Hok ..|]
  end.
  rewrite E7, Ess. exists sh7. split; [done|]. exact R7.
Qed.

Lemma sample_okb_spec sh : sample_okb sh = true -> sample_ok sh.
Proof.
  unfold sample_okb, sample_ok. intros [H1 H2]%andb_true_iff.
  rewrite forallb_forall in H1. rewrite forallb_forall in H2.
  split; apply Forall_forall; intros key Hkey%list_elem_of_In.
  - apply H1 in Hkey. by apply bool_decide_eq_true in Hkey.
  - apply H2 in Hkey as [?%bool_decide_eq_true ?%bool_decide_eq_true]%andb_true_iff.
    done.
Qed.

Section Initialisation.

Context (lib : Collaborator) (Hok : sample_ok (getSampleStyleSheet lib)).
Context (f : string) (Hdoc : new_template lib (new_doc f) = None).

Lemma init_ok :
  exists g,
    __init__ lib f = inr g /\
    filename g = f /\ doc g = new_doc f /\ story g = [] /\
    Registered (getSampleStyleSheet lib) (reverse custom_names) (styles g).
Proof.
  unfold __init__. rewrite Hdoc.
  set (self := {| filename := f; doc := new_doc f;
                  styles := getSampleStyleSheet lib; story := [] |}).
  destruct (setup_custom_styles_ok (defaults lib) self Hok) as (sh & -> & Hreg).
  eexists. split; [reflexivity|]. done.
Qed.

Lemma generator_at_init : __init__ lib f = inr (generator_at lib f).
Proof.
  destruct init_ok as (g & Hg & _). unfold generator_at. by rewrite Hg.
Qed.

Lemma init_resolves g : __init__ lib f = inr g -> resolves (styles g).
Proof.
  destruct init_ok as (g' & Hg & _ & _ & _ & Hreg). rewrite Hg. intros [= <-].
  by eapply Registered_resolves.
Qed.

End Initialisation.

(** ** generate *)

(** *** The console and the file system *)

(** The statements after [build] leave the calls of [build] and the
    environment as they are. *)
Lemma report_frame g size p :
  build_calls (report g size p).2 = build_calls p /\
  encode_error (report g size p).2 = encode_error p /\
  getsize_error (report g size p).2 = getsize_error p.
Proof.
  unfold report, print, getsize.
  destruct (encode_error p (success_message g)); [done|]. cbn [write getsize_error].
  destruct (getsize_error p (filename g)); [done|].
  destruct (format_kb size) as [e|kb]; [done|]. cbn [write encode_error].
  by destruct (encode_error p (size_message kb)).
Qed.


(** They raise exactly when the console refuses one of the two lines, the
    operating system refuses to give the size, or the division overflows. *)
Lemma report_raises g size p e :
  (report g size p).1 = inl e <-> report_fails g size p e.
Proof.
  unfold report_fails, report, print, getsize.
  destruct (encode_error p (success_message g)) as [e1|].
  { cbn. split; [intros [= ->]; by left|]. intros [[= ->]|[? _]]; done. }
  cbn [write getsize_error encode_error].
  destruct (getsize_error p (filename g)) as [e2|].
  { cbn. split; [intros [= ->]; right; split; [done|by left]|].
    intros [?|[_ [[= ->]|[? _]]]]; done. }
  destruct (format_kb size) as [e3|kb].
  { cbn. split; [intros [= ->]; right; split; [done|]; right; split; [done|by left]|].
    intros [?|[_ [?|[_ [[= ->]|(kb & ? & _)]]]]]; done. }
  destruct (encode_error p (size_message kb)) as [e4|] eqn:H4; cbn.
  - split.
    + intros [= ->]. right. split; [done|]. right. split; [done|]. right.
      by exists kb.
    + intros [?|[_ [?|[_ [?|(kb' & [= <-] & H)]]]]]; try done.
      rewrite H4 in H. by injection H as ->.
  - split; [done|].
    intros [?|[_ [?|[_ [?|(kb' & [= <-] & H)]]]]]; try done. by rewrite H4 in H.
Qed.

(** When they return, they return the file name and have printed the two
    lines. *)
Lemma report_returns g size p name :
  (report g size p).1 = inr name ->
  name = filename g /\
  exists kb,
    format_kb size = inr kb /\
    encode_error p (success_message g) = None /\
    getsize_error p (filename g) = None /\
    encode_error p (size_message kb) = None /\
    (report g size p).2 = write (size_message kb) (write (success_message g) p).
Proof.
  unfold report, print, getsize.
  destruct (encode_error p (success_message g)) as [e1|]; [done|].
  cbn [write getsize_error encode_error].
  destruct (getsize_error p (filename g)) as [e2|]; [done|].
  destruct (format_kb size) as [e3|kb]; [done|].
  destruct (encode_error p (size_message kb)) as [e4|] eqn:H4; [done|]. cbn.
  intros [= <-]. split; [done|]. by exists kb.
Qed.

(** What they have printed when they raise: nothing, or the line of
    success. *)
Lemma report_raised_stdout g size p e :
  (report g size p).1 = inl e ->
  (report g size p).2 = p \/ (report g size p).2 = write (success_message g) p.
Proof.
  unfold report, print, getsize.
  destruct (encode_error p (success_message g)) as [e1|]; [by left|].
  cbn [write getsize_error encode_error].
  destruct (getsize_error p (filename g)) as [e2|]; [by right|].
  destruct (format_kb size) as [e3|kb]; [by right|].
  destruct (encode_error p (size_message kb)) as [e4|]; [by right|]. done.
Qed.

(** *** The run of [generate] *)

(** [generate] in terms of its parts: the opening line, the seven builders,
    [build], and the statements after it. *)
Lemma generate_eq lib now g p :
  generate lib now g p =
    match print (start_message g) p with
    | inl e => (inl e, g, p)
    | inr p0 =>
      match all_sections now g with
      | (inl e, g1) => (inl e, g1, p0)
      | (inr _, g1) =>
        let res := build lib (doc g1) (story g1) in
        let p1 := record_build (doc g1) (story g1) p0 in
        let g2 := set_story g1 (remaining res) in
        match outcome res with
        | inl e => (inl e, g2, p1)
        | inr size => ((report g2 size p1).1, g2, (report g2 size p1).2)
        end
      end
    end.
Proof.
  unfold generate. fold (start_message g).
  destruct (print (start_message g) p) as [e|p0]; [done|].
  change (bind (add_cover_page now) _ g) with (all_sections now g).
  destruct (all_sections now g) as [[e|[]] g1]; [done|]. cbv zeta.
  destruct (outcome _) as [e|size]; [done|].
  unfold report.
  change (filename (set_story g1 ?st)) with (filename g1).
  fold (success_message g1).
  change (success_message (set_story g1 ?st)) with (success_message g1).
  destruct (print (success_message g1) _) as [e|p2]; [done|].
  destruct (getsize _ _ _) as [e|n]; [done|].
  destruct (format_kb n) as [e|kb]; [done|]. fold (size_message kb).
  by destruct (print (size_message kb) p2).
Qed.

Lemma generate_run lib now g p :
  resolves (styles g) ->
  generate lib now g p =
    match print (start_message g) p with
    | inl e => (inl e, g, p)
    | inr p0 =>
      let st := assembled g now in
      let res := build lib (doc g) st in
      let p1 := record_build (doc g) st p0 in
      let g' := set_story g (remaining res) in
      match outcome res with
      | inl e => (inl e, g', p1)
      | inr size => ((report g size p1).1, g', (report g size p1).2)
      end
    end.
Proof.
  intros Hres. unfold generate. fold (start_message g).
  destruct (print (start_message g) p) as [e|p0]; [done|].
  change (bind (add_cover_page now) _ g) with (all_sections now g).
  rewrite (all_sections_ok now g Hres). cbv zeta.
  cbn [fst snd doc story filename set_story].
  destruct (outcome _) as [e|size]; [done|].
  unfold report. fold (success_message g).
  destruct (print (success_message g) _) as [e|p2]; [done|].
  destruct (getsize _ _ _) as [e|n]; [done|].
  destruct (format_kb n) as [e|kb]; [done|]. fold (size_message kb).
  by destruct (print (size_message kb) p2).
Qed.

(** When a lookup fails, [generate] stops there. *)
Lemma generate_raise lib now g p e b :
  appends (styles g) (all_sections now) (inl e) b ->
  generate lib now g p =
    match print (start_message g) p with
    | inl e' => (inl e', g, p)
    | inr p0 => (inl e, set_story g (story g ++ b), p0)
    end.
Proof.
  intros Hb. unfold generate. fold (start_message g).
  destruct (print (start_message g) p) as [e'|p0]; [done|].
  change (bind (add_cover_page now) _ g) with (all_sections now g).
  by rewrite (Hb g eq_refl).
Qed.

(** The calls of [build] of a run of [generate]. *)
Lemma generate_calls lib now g p :
  resolves (styles g) ->
  build_calls (generate lib now g p).2 =
    build_calls p ++ handed_over g p (assembled g now).
Proof.
  intros Hres. rewrite (generate_run lib now g p Hres). unfold handed_over, print.
  destruct (encode_error p (start_message g)) as [e|]; cbn.
  { by rewrite app_nil_r. }
  destruct (outcome _) as [e|size]; cbn; [done|].
  by destruct (report_frame g size
                 (record_build (doc g) (assembled g now) (write (start_message g) p)))
    as [-> _].
Qed.

(** What a call of [generate] leaves when the opening line was printed: the
    result and the story. *)
Lemma generate_effect lib now g p :
  resolves (styles g) ->
  encode_error p (start_message g) = None ->
  let st := assembled g now in
  let res := build lib (doc g) st in
  let p1 := record_build (doc g) st (write (start_message g) p) in
  (generate lib now g p).1.1 =
    match outcome res with inl e => inl e | inr size => (report g size p1).1 end /\
  (generate lib now g p).1.2 = set_story g (remaining res) /\
  (generate lib now g p).2 =
    match outcome res with inl e => p1 | inr size => (report g size p1).2 end.
Proof.
  intros Hres Henc. rewrite (generate_run lib now g p Hres). unfold print.
  rewrite Henc. cbv zeta. by destruct (outcome _).
Qed.



(** ** Running the script *)

Lemma sample_sheet_ok : sample_ok sample_sheet.
Proof. apply sample_okb_spec. vm_compute. reflexivity. Qed.

Example strftime_nov_4 : strftime nov_4 = "04 de November, 2026".
Proof. reflexivity. Qed.

Example format_kb_rounds : format_kb 12345 = inr "12.06".
Proof. vm_compute. reflexivity. Qed.

(** 128 bytes are 0.125 KB, half way between two hundredths: ties go to the
    even one. *)
Example format_kb_tie : format_kb 128 = inr "0.12".
Proof. vm_compute. reflexivity. Qed.

(** 2^53 + 15 bytes are not a double: the division is that of the nearest
    one, 2^53 + 16. *)
Example format_kb_double : format_kb (2 ^ 53 + 15) = inr "8796093022208.02".
Proof. vm_compute. reflexivity. Qed.

Example main_story_length :
  map (fun c : _ * _ => length c.2) (build_calls (main draining_library nov_4 console).2)
  = [189].
Proof. vm_compute. reflexivity. Qed.

Example main_console :
  stdout (main draining_library nov_4 console).2 =
    ["Generando reporte técnico especializado: JobNimbus_MCP_Technical_Optimization_Report.pdf";
     "✅ Reporte generado exitosamente: JobNimbus_MCP_Technical_Optimization_Report.pdf";
     "📄 Tamaño: 189.00 KB"].
Proof. vm_compute. reflexivity. Qed.

(** On a console in Latin-1 the opening line is printed, with its [é], and
    the line of success is not. *)
Example main_latin1 :
  let out := main draining_library nov_4 latin1_console in
  out.1 = inl (Exn "UnicodeEncodeError"
                 "'latin-1' codec can't encode character '\u2705' in position 0: ordinal not in range(256)") /\
  stdout out.2 =
    ["Generando reporte técnico especializado: JobNimbus_MCP_Technical_Optimization_Report.pdf"] /\
  map (fun c : _ * _ => length c.2) (build_calls out.2) = [189].
Proof. repeat split; vm_compute; reflexivity. Qed.

Example cover_page_shapes :
  map shape (appended (add_cover_page nov_4) (report_generator draining_library)) =
    [SParagraph "JobNimbus MCP Remote Server";
     SSpacer (PyInt 1) (times_inch 0.3);
     SParagraph "Análisis Técnico Especializado de Optimización";
     SSpacer (PyInt 1) (times_inch 0.5);
     STable summary_table;
     SSpacer (PyInt 1) (times_inch 0.5);
     SParagraph (info_text nov_4);
     SPageBreak].
Proof. vm_compute. reflexivity. Qed.

(** ** Two runs of [generate] *)





(** * The statements of the specification *)

(** C1, as the code has it.  What a section builder returns and appends is a
    function of the style registry and, for the cover page only, of the date
    the clock shows: two calls of the same builder on generators with the same
    registry append the same flowables, provided, for [add_cover_page], that
    the formatted date is the same.  Two runs of the entry point on the same
    date, with the same library, do the same. *)
Theorem section_builders_pure now1 now2 :
  (forall id g1 g2,
     styles g1 = styles g2 ->
     (id = Cover -> strftime now1 = strftime now2) ->
     (builder now1 id g1).1 = (builder now2 id g2).1 /\
     appended (builder now1 id) g1 = appended (builder now2 id) g2) /\
  (strftime now1 = strftime now2 ->
   forall lib p, main lib now1 p = main lib now2 p).
Proof.
  split.
  - intros id g1 g2 Hst Hdate. rewrite (builder_date now1 now2 id Hdate).
    destruct (builder_sound (styles g1) now2 id) as (r & b & Hb & _).
    destruct (appends_appended _ _ _ _ g1 Hb eq_refl) as [-> ->].
    by destruct (appends_appended _ _ _ _ g2 Hb (eq_sym Hst)) as [-> ->].
  - intros Hdate lib p. unfold main, generate.
    by rewrite (add_cover_page_date now1 now2 Hdate).
Qed.

Lemma section_builders_pure_witness :
  appended (builder nov_4 Cover) (report_generator draining_library) =
  appended (builder nov_4 Cover)
    (set_story (report_generator draining_library) [PageBreak]).
Proof.
  apply (proj1 (section_builders_pure nov_4 nov_4) Cover
           (report_generator draining_library)
           (set_story (report_generator draining_library) [PageBreak]));
    reflexivity.
Defined.

(** C1 fails as stated: on one and the same generator, hence one style
    registry, [add_cover_page] appends different flowables on 4 and on 5
    November 2026 (the seventh, the paragraph with the date, differs), and the
    two runs of the entry point hand different stories to the library. *)
Lemma cover_page_reads_the_clock :
  let g := report_generator draining_library in
  appended (add_cover_page nov_4) g <> appended (add_cover_page nov_5) g /\
  build_calls (main draining_library nov_4 console).2 <>
    build_calls (main draining_library nov_5 console).2.
Proof.
  split.
  - intros H. apply (f_equal (fun st => shape <$> st !! 6)) in H.
    vm_compute in H. discriminate H.
  - intros H.
    apply (f_equal (fun cs => (fun c : _ * _ => shape <$> c.2 !! 6) <$> cs !! 0)) in H.
    vm_compute in H. discriminate H.
Qed.






(** C4. Starting from a generator whose registry has the styles the builders
    look up, after any number [k] of the calls of any sequence of builder
    calls the length of the story is its initial length plus the block counts
    of the sections built so far (8, 30, 22, 26, 50, 19 and 34 for the seven
    sections), and the story at that point is a prefix of the story at the
    end: every flowable keeps its position. *)
Theorem story_grows_by_block_counts (calls : list (datetime * SectionId)) g k :
  resolves (styles g) ->
  let gk := (run_calls (take k calls) g).2 in
  let g' := (run_calls calls g).2 in
  (run_calls calls g).1 = inr tt /\
  length (story gk) =
    length (story g) + sum_list (map (fun c => block_count c.2) (take k calls)) /\
  story g' = story g ++ flat_map (fun c => contribution (styles g) c.1 c.2) calls /\
  story gk `prefix_of` story g' /\
  (forall i f, story gk !! i = Some f -> story g' !! i = Some f).
Proof.
  intros Hres. simpl.
  rewrite !run_calls_ok by done. simpl.
  assert (story g ++ flat_map (fun c => contribution (styles g) c.1 c.2) (take k calls)
          `prefix_of`
          story g ++ flat_map (fun c => contribution (styles g) c.1 c.2) calls) as Hpre.
  { apply prefix_app. rewrite <- (take_drop k calls) at 2.
    rewrite flat_map_app. by apply prefix_app_r. }
  split; [done|]. split.
  { by rewrite length_app, length_contributions. }
  split; [done|]. split; [done|].
  intros i f Hi. by eapply prefix_lookup_Some.
Qed.

Lemma story_grows_by_block_counts_witness :
  length (story (run_calls (take 2 [(nov_4, Cover); (nov_5, Conclusions); (nov_5, Cover)])
                   (report_generator draining_library)).2) = 0 + (8 + (34 + 0)).
Proof.
  apply (story_grows_by_block_counts
           [(nov_4, Cover); (nov_5, Conclusions); (nov_5, Cover)]
           (report_generator draining_library) 2).
  apply resolvesb_spec. vm_compute. reflexivity.
Defined.

(** C5. Whatever file name is passed, when the library's template constructor
    accepts it and the sample sheet has the parents and leaves the names to
    register free, the constructor returns a generator whose story is empty and
    in whose registry each of the seven custom names resolves to a style of
    that name. *)
Theorem init_empty_story_and_styles lib f :
  sample_ok (getSampleStyleSheet lib) ->
  new_template lib (new_doc f) = None ->
  exists g,
    __init__ lib f = inr g /\
    filename g = f /\
    story g = [] /\
    length (story g) = 0 /\
    Forall (fun key => exists s, getitem (styles g) key = Some s /\ style_name s = key)
      custom_names.
Proof.
  intros Hok Hdoc.
  destruct (init_ok lib Hok f Hdoc) as (g & Hg & Hf & _ & Hst & Hreg).
  exists g. rewrite Hst. repeat split; try done.
  apply Forall_forall. intros key Hkey.
  apply (getitem_Registered_in _ _ _ key Hreg).
  - by apply elem_of_reverse.
  - by apply sample_ok_free.
Qed.

Lemma init_empty_story_and_styles_witness :
  exists g,
    __init__ draining_library "report.pdf" = inr g /\
    filename g = "report.pdf" /\
    story g = [] /\
    length (story g) = 0 /\
    Forall (fun key => exists s, getitem (styles g) key = Some s /\ style_name s = key)
      custom_names.
Proof.
  apply (init_empty_story_and_styles draining_library "report.pdf").
  - apply sample_okb_spec. vm_compute. reflexivity.
  - reflexivity.
Defined.


(** C7. The [Table] constructor keeps every row it is given.  On a generator
    whose registry has the styles the builders look up, each builder appends
    the tables of its section, and the story handed to [build] (in the one
    call [generate] makes, unless the console refused its opening line) holds,
    after the tables it already held, exactly the seven tables of the builders; each
    was built from the row list declared for it, a header row followed by the
    data rows, and has one row more than there are data rows: 1+6, 1+7, 1+8,
    1+5, 1+6, 1+3 and 1+3. *)
Theorem tables_keep_declared_rows lib now g p :
  resolves (styles g) ->
  (forall data widths cmds,
     _cellvalues (setStyle (Table data widths) cmds) = data /\
     _nrows (setStyle (Table data widths) cmds) = length data) /\
  (forall id, tables_of (appended (builder now id) g) = section_tables id) /\
  (exists st,
     build_calls (generate lib now g p).2 = build_calls p ++ handed_over g p st /\
     tables_of st = tables_of (story g) ++ report_tables) /\
  length report_tables = 7 /\
  Forall2 (fun t rows =>
             exists header data,
               rows = header :: data /\
               _cellvalues t = header :: data /\
               _nrows t = 1 + length data)
          report_tables declared_rows /\
  map _nrows report_tables = [1 + 6; 1 + 7; 1 + 8; 1 + 5; 1 + 6; 1 + 3; 1 + 3].
Proof.
  intros Hres. split; [done|]. split.
  { intros id. unfold appended. rewrite (builder_ok now id g Hres). simpl.
    rewrite drop_app_length. apply (contribution_total (styles g) Hres). }
  split.
  { exists (assembled g now). split.
    - apply (generate_calls lib now g p Hres).
    - by apply tables_of_assembled. }
  split; [reflexivity|]. split; [|reflexivity].
  unfold report_tables, declared_rows. simpl.
  repeat (apply Forall2_cons; split; [eexists _, _; repeat split|]).
  apply Forall2_nil_2.
Qed.

Lemma tables_keep_declared_rows_witness :
  map _nrows report_tables = [1 + 6; 1 + 7; 1 + 8; 1 + 5; 1 + 6; 1 + 3; 1 + 3].
Proof.
  apply (tables_keep_declared_rows draining_library nov_4
           (report_generator draining_library) console).
  apply resolvesb_spec. vm_compute. reflexivity.
Defined.

(** C8, as the code has it.  The generator does not look at the output path.
    An exception of the library's template constructor is what the
    constructor of the generator raises, before any section is built.  When
    the template constructor accepts the path, the generator is made, and an
    exception of [build], whatever its cause, comes out of [generate] after
    all seven sections have been appended and the story of 189 flowables has
    been handed over; it is returned as the library raised it, nothing about
    a section is added, and only the opening line has been printed.  (When
    the console refuses the opening line, [generate] stops there, before the
    first section.) *)
Theorem errors_surface_unchanged lib f now p :
  sample_ok (getSampleStyleSheet lib) ->
  (forall e, new_template lib (new_doc f) = Some e -> __init__ lib f = inl e) /\
  (new_template lib (new_doc f) = None ->
   exists g,
     __init__ lib f = inr g /\
     story g = [] /\
     length (assembled g now) = 189 /\
     forall e,
       outcome (build lib (doc g) (assembled g now)) = inl e ->
       generate lib now g p =
         match print (start_message g) p with
         | inl e' => (inl e', g, p)
         | inr p0 =>
           (inl e,
            set_story g (remaining (build lib (doc g) (assembled g now))),
            record_build (doc g) (assembled g now) p0)
         end).
Proof.
  intros Hok. split.
  - intros e He. unfold __init__. by rewrite He.
  - intros Hdoc.
    destruct (init_ok lib Hok f Hdoc) as (g & Hg & _ & _ & Hst & Hreg).
    pose proof (init_resolves lib Hok f Hdoc g Hg) as Hres.
    exists g. split; [done|]. split; [done|]. split.
    + rewrite length_assembled by done. by rewrite Hst.
    + intros e He. rewrite (generate_run lib now g p Hres). cbv zeta. by rewrite He.
Qed.

Lemma errors_surface_unchanged_witness :
  exists g,
    __init__ readonly_library unwritable = inr g /\
    story g = [] /\
    length (assembled g nov_4) = 189 /\
    forall e,
      outcome (build readonly_library (doc g) (assembled g nov_4)) = inl e ->
      generate readonly_library nov_4 g console =
        match print (start_message g) console with
        | inl e' => (inl e', g, console)
        | inr p0 =>
          (inl e,
           set_story g (remaining (build readonly_library (doc g) (assembled g nov_4))),
           record_build (doc g) (assembled g nov_4) p0)
        end.
Proof.
  apply (errors_surface_unchanged readonly_library unwritable nov_4 console).
  - apply sample_okb_spec. vm_compute. reflexivity.
  - reflexivity.
Defined.

(** C8 fails as stated: with a library that accepts any file name when the
    template is made and fails when it comes to write, the constructor of the
    generator returns normally for a path in a directory that does not exist;
    the error is raised by [generate], from the one call of [build], which
    was handed all 189 flowables; and it is the library's exception as such. *)
Lemma bad_path_reported_by_build :
  exists g,
    __init__ readonly_library unwritable = inr g /\
    (generate readonly_library nov_4 g console).1.1 =
      inl (Exn "FileNotFoundError" unwritable) /\
    map (fun c : _ * _ => length c.2)
      (build_calls (generate readonly_library nov_4 g console).2) = [189] /\
    stdout (generate readonly_library nov_4 g console).2 = [start_message g].
Proof.
  exists (generator_at readonly_library unwritable).
  split; [by apply generator_at_init; [apply sample_sheet_ok|]|].
  split; [vm_compute; reflexivity|].
  split; vm_compute; reflexivity.
Qed.

(** C9. A section builder only grows the story: whichever of the seven
    [add_*] methods runs, in whatever state and whether or not it raises, the
    file name, the document template (page size and margins) and the style
    registry are as before, and the story it found is a prefix of the story it
    leaves. *)
Theorem add_section_frame now id g :
  let g' := (builder now id g).2 in
  filename g' = filename g /\
  doc g' = doc g /\
  styles g' = styles g /\
  story g `prefix_of` story g'.
Proof.
  simpl. rewrite builder_run. simpl.
  repeat split. by apply prefix_app_r.
Qed.

(** C10. Under the same conditions on the library as for C5, registration
    does not raise, and each of the eight names the builders look up
    ('CustomTitle', 'CustomSubtitle', 'Section', 'Subsection', 'Highlight',
    'Metric', 'BodyText', 'Code') resolves in the registry, so that no builder
    raises.  'Code' is the entry of the sample sheet, and the three code
    snippets are paragraphs in that style; 'CustomCode' is registered and is
    not among the names looked up: a registry that agrees on the eight names
    yields the same flowables.  The seven registered names are pairwise
    distinct. *)
Theorem referenced_styles_resolve lib f :
  sample_ok (getSampleStyleSheet lib) ->
  new_template lib (new_doc f) = None ->
  exists g,
    __init__ lib f = inr g /\
    Forall (fun key => is_Some (getitem (styles g) key)) referenced_names /\
    (forall now id g', styles g' = styles g -> (builder now id g').1 = inr tt) /\
    getitem (styles g) "Code" = getitem (getSampleStyleSheet lib) "Code" /\
    (forall s now, getitem (styles g) "Code" = Some s ->
       forall code, code ∈ [code1; code2; code3] ->
       Paragraph code s ∈ contribution (styles g) now OptimizationStrategies) /\
    is_Some (getitem (styles g) "CustomCode") /\
    ("CustomCode" ∉ referenced_names) /\
    (forall sh,
       Forall (fun key => getitem sh key = getitem (styles g) key) referenced_names ->
       forall now id, contribution sh now id = contribution (styles g) now id) /\
    NoDup custom_names.
Proof.
  intros Hok Hdoc.
  destruct (init_ok lib Hok f Hdoc) as (g & Hg & _ & _ & _ & Hreg).
  pose proof (init_resolves lib Hok f Hdoc g Hg) as Hres.
  exists g. split; [done|]. split; [done|]. split.
  { intros now id g' Hst. rewrite <- Hst in Hres.
    by rewrite (builder_ok now id g' Hres). }
  split.
  { apply (getitem_Registered_notin _ _ _ _ Hreg). rewrite elem_of_reverse.
    unfold custom_names. set_solver. }
  split; [intros s now Hs; by apply strategies_code_style|].
  split.
  { destruct (getitem_Registered_in _ _ _ "CustomCode" Hreg) as (s & -> & _); [| |done].
    - rewrite elem_of_reverse. unfold custom_names. set_solver.
    - apply sample_ok_free; [done|]. unfold custom_names. set_solver. }
  split; [unfold referenced_names; set_solver|].
  split.
  { intros sh Hsh now id.
    destruct (builder_agrees sh (styles g) now id Hsh) as (r & b & H1 & H2).
    unfold contribution. by rewrite (H1 (blank sh) eq_refl), (H2 (blank (styles g)) eq_refl). }
  unfold custom_names. repeat (apply NoDup_cons; split; [set_solver|]). apply NoDup_nil_2.
Qed.

Lemma referenced_styles_resolve_witness :
  exists g,
    __init__ draining_library default_filename = inr g /\
    Forall (fun key => is_Some (getitem (styles g) key)) referenced_names.
Proof.
  destruct (referenced_styles_resolve draining_library default_filename)
    as (g & Hg & Hres & _).
  - apply sample_okb_spec. vm_compute. reflexivity.
  - reflexivity.
  - exists g. split; [exact Hg | exact Hres].
Defined.

(** * Further properties *)

(** ** Registration *)

Lemma bind_ext {A B} (m : Gen A) (k k' : A -> Gen B) g :
  (forall a g', k a g' = k' a g') -> bind m k g = bind m k' g.
Proof. intros H. unfold bind. destruct (m g) as [[e|a] g']; [done|apply H]. Qed.

Lemma bind_ret_unit (m : Gen unit) g : bind m (fun _ => ret tt) g = m g.
Proof. unfold bind, ret. by destruct (m g) as [[e|[]] g']. Qed.

(** [_setup_custom_styles] makes the registrations of the table, in order. *)
Lemma setup_as_table d g :
  _setup_custom_styles d g = for_each registrations (register d) g.
Proof.
  unfold _setup_custom_styles, registrations. simpl for_each.
  do 6 (apply bind_ext; intros _ ?).
  symmetry. apply bind_ret_unit.
Qed.

Lemma register_run d r g :
  register d r g =
    match getitem (styles g) (reg_parent r) with
    | None => (inl (not_found (reg_parent r)), g)
    | Some parent =>
      match add (styles g) (new_ParagraphStyle d (reg_name r) parent (reg_kw r)) with
      | inl e => (inl e, g)
      | inr sh => (inr tt, set_styles g sh)
      end
    end.
Proof.
  unfold register, bind, styles_getitem, styles_add.
  by destruct (getitem (styles g) (reg_parent r)).
Qed.

Lemma add_Some sh s sh' :
  add sh s = inr sh' <->
  byName sh !! style_name s = None /\ byAlias sh !! style_name s = None /\
  sh' = mkStyleSheet1 (<[style_name s := s]> (byName sh)) (byAlias sh).
Proof.
  unfold add.
  destruct (byName sh !! style_name s), (byAlias sh !! style_name s); split;
    try (by intros [= <-]); try (by intros (? & ? & ?)).
  by intros (_ & _ & ->).
Qed.

Lemma add_is_KeyError sh s e : add sh s = inl e -> is_KeyError e.
Proof.
  unfold add.
  destruct (byName sh !! style_name s), (byAlias sh !! style_name s);
    by intros [= <-].
Qed.

Lemma bind_inr_inv {A B} (m : Gen A) (k : A -> Gen B) g b g' :
  bind m k g = (inr b, g') ->
  exists a g1, m g = (inr a, g1) /\ k a g1 = (inr b, g').
Proof.
  unfold bind. destruct (m g) as [[e|a] g1]; [done|]. eauto.
Qed.

Section Table.

Context (d : gmap string Value) (sample : StyleSheet1).

Lemma RegisteredAs_nil : RegisteredAs d sample [] sample.
Proof. split; [done|]. split; [done|]. constructor. Qed.

Lemma RegisteredAs_getitem rs sh key :
  RegisteredAs d sample rs sh -> key ∉ map reg_name rs ->
  getitem sh key = getitem sample key.
Proof. intros (Ha & Hn & _) Hkey. unfold getitem. by rewrite Ha, Hn. Qed.

(** One more registration on a sheet with the registrations [rs] made: it
    succeeds exactly when the sample sheet offers what it needs. *)
Lemma register_step_iff rs r g :
  RegisteredAs d sample rs (styles g) ->
  reg_parent r ∉ map reg_name rs ->
  reg_name r ∉ map reg_name rs ->
  (registration_ok sample r ->
   exists sh, register d r g = (inr tt, set_styles g sh) /\
              RegisteredAs d sample (rs ++ [r]) sh) /\
  (forall g', register d r g = (inr tt, g') -> registration_ok sample r).
Proof.
  intros Hreg Hpk Hname. pose proof Hreg as (Ha & Hn & Hall).
  rewrite register_run, (RegisteredAs_getitem _ _ _ Hreg Hpk). split.
  - intros ([parent Hp] & Hfn & Hfa). rewrite Hp.
    destruct (add (styles g) _) as [e|sh] eqn:Hadd.
    { exfalso. unfold add in Hadd. simpl style_name in Hadd.
      by rewrite (Hn _ Hname), Hfn, Ha, Hfa in Hadd. }
    apply add_Some in Hadd as (_ & _ & ->). simpl style_name.
    eexists. split; [reflexivity|]. split; [done|]. split.
    + intros key Hkey. rewrite map_app in Hkey. simpl in Hkey.
      apply not_elem_of_app in Hkey as [Hkey Hne].
      apply not_elem_of_cons in Hne as [Hne _]. simpl.
      rewrite lookup_insert_ne by done. auto.
    + apply Forall_app. split.
      * apply Forall_forall. intros r' Hr'.
        destruct (proj1 (Forall_forall _ _) Hall r' Hr') as (p' & Hp' & Hs').
        exists p'. split; [done|]. simpl.
        rewrite lookup_insert_ne; [done|].
        intros E. apply Hname. rewrite E. apply list_elem_of_fmap_2. done.
      * apply Forall_singleton. exists parent. split; [done|]. simpl.
        by rewrite lookup_insert_eq.
  - intros g'. destruct (getitem sample (reg_parent r)) as [parent|] eqn:Hp; [|done].
    destruct (add (styles g) _) as [e|sh] eqn:Hadd; [done|]. intros _.
    apply add_Some in Hadd as (Hfn & Hfa & _). simpl style_name in Hfn, Hfa.
    split; [by eexists|]. split.
    + by rewrite <- (Hn _ Hname).
    + by rewrite <- Ha.
Qed.

(** The registrations [rs], made one after the other, all succeed exactly
    when the sample sheet offers each what it needs, provided the names are
    distinct and no parent is looked up under a registered name. *)
Lemma registrations_run rs0 rs g :
  RegisteredAs d sample rs0 (styles g) ->
  NoDup (map reg_name (rs0 ++ rs)) ->
  Forall (fun r => reg_parent r ∉ map reg_name (rs0 ++ rs)) rs ->
  (Forall (registration_ok sample) rs ->
   exists sh, for_each rs (register d) g = (inr tt, set_styles g sh) /\
              RegisteredAs d sample (rs0 ++ rs) sh) /\
  (forall g', for_each rs (register d) g = (inr tt, g') ->
              Forall (registration_ok sample) rs).
Proof.
  revert rs0 g. induction rs as [|r rs IH]; intros rs0 g Hreg Hnd Hpar.
  { split.
    - intros _. exists (styles g). rewrite app_nil_r. split; [|done].
      simpl. unfold ret. by destruct g.
    - intros; constructor. }
  assert (reg_name r ∉ map reg_name rs0) as Hname.
  { rewrite map_app in Hnd. apply NoDup_app in Hnd as (_ & Hdis & _).
    intros Hin. apply (Hdis _ Hin). simpl. apply list_elem_of_here. }
  apply Forall_cons_1 in Hpar as [Hpk Hpar].
  assert (reg_parent r ∉ map reg_name rs0) as Hpk0.
  { intros Hin. apply Hpk. rewrite map_app. apply elem_of_app. by left. }
  destruct (register_step_iff rs0 r g Hreg Hpk0 Hname) as [Hstep Hinv].
  assert (rs0 ++ r :: rs = (rs0 ++ [r]) ++ rs) as Eapp by by rewrite <- app_assoc.
  rewrite Eapp in Hnd, Hpar.
  split.
  - intros [Hr Hrs]%Forall_cons_1.
    destruct (Hstep Hr) as (sh1 & Hrun & Hreg1).
    destruct (IH (rs0 ++ [r]) (set_styles g sh1) Hreg1 Hnd Hpar) as [Hall _].
    destruct (Hall Hrs) as (sh & Hrun' & Hreg').
    exists sh. simpl. unfold bind. rewrite Hrun, Hrun'. rewrite Eapp. done.
  - intros g' Hrun. simpl in Hrun.
    apply bind_inr_inv in Hrun as ([] & g1 & Hr & Hrs).
    pose proof (Hinv g1 Hr) as Hok.
    destruct (Hstep Hok) as (sh1 & Hrun1 & Hreg1).
    rewrite Hrun1 in Hr. injection Hr as <-.
    destruct (IH (rs0 ++ [r]) (set_styles g sh1) Hreg1 Hnd Hpar) as [_ Hconv].
    apply Forall_cons. split; [done|]. by eapply Hconv.
Qed.

End Table.

Lemma registrations_names : map reg_name registrations = custom_names.
Proof. reflexivity. Qed.

Lemma registrations_distinct : NoDup (map reg_name registrations).
Proof.
  rewrite registrations_names. unfold custom_names.
  repeat (apply NoDup_cons; split; [set_solver|]). apply NoDup_nil_2.
Qed.

Lemma registrations_parents :
  Forall (fun r => reg_parent r ∉ map reg_name registrations) registrations.
Proof.
  rewrite registrations_names. unfold registrations, custom_names.
  repeat (apply Forall_cons; split; [unfold reg_parent; simpl; set_solver|]).
  constructor.
Qed.

(** What the constructor does, in full. *)
Lemma init_run lib f :
  (Forall (registration_ok (getSampleStyleSheet lib)) registrations ->
   new_template lib (new_doc f) = None ->
   exists sh,
     __init__ lib f = inr (mkGenerator f (new_doc f) sh []) /\
     RegisteredAs (defaults lib) (getSampleStyleSheet lib) registrations sh) /\
  (forall g, __init__ lib f = inr g ->
     new_template lib (new_doc f) = None /\
     Forall (registration_ok (getSampleStyleSheet lib)) registrations).
Proof.
  set (self := {| filename := f; doc := new_doc f;
                  styles := getSampleStyleSheet lib; story := [] |}).
  destruct (registrations_run (defaults lib) (getSampleStyleSheet lib) []
              registrations self (RegisteredAs_nil _ _)
              registrations_distinct registrations_parents) as [Hrun Hinv].
  unfold __init__. fold self. rewrite setup_as_table. split.
  - intros Hok ->. destruct (Hrun Hok) as (sh & -> & Hreg). by exists sh.
  - intros g. destruct (new_template lib (new_doc f)); [done|].
    destruct (for_each registrations (register (defaults lib)) self)
      as [[e|[]] g'] eqn:E; [done|].
    intros _. split; [done|]. by eapply Hinv.
Qed.

(** The object the constructor returns, the registry apart. *)
Lemma init_object lib f g :
  __init__ lib f = inr g -> exists sh, g = mkGenerator f (new_doc f) sh [].
Proof.
  intros Hg. destruct (init_run lib f) as [Hrun Hinv].
  destruct (Hinv g Hg) as [Hdoc Hok].
  destruct (Hrun Hok Hdoc) as (sh & Hg' & _).
  rewrite Hg in Hg'. injection Hg' as ->. by exists sh.
Qed.

Lemma registrable_table sample :
  registrable sample <-> Forall (registration_ok sample) registrations.
Proof.
  unfold registrable, registrations, parent_names, custom_names.
  rewrite !Forall_cons, !Forall_nil.
  unfold registration_ok, reg_parent, reg_name. simpl. tauto.
Qed.

Lemma registrableb_spec sample : registrableb sample = true -> registrable sample.
Proof.
  unfold registrableb, registrable. intros [H1 H2]%andb_true_iff.
  rewrite forallb_forall in H1. rewrite forallb_forall in H2.
  split; apply Forall_forall; intros key Hkey%list_elem_of_In.
  - apply H1 in Hkey. by apply bool_decide_eq_true in Hkey.
  - apply H2 in Hkey as [?%bool_decide_eq_true ?%bool_decide_eq_true]%andb_true_iff.
    done.
Qed.

(** X1. The constructor returns a generator exactly when the library's
    template constructor accepts the file name, the sample sheet has the five
    parent styles (Heading1, Heading2, Heading3, Normal, BodyText) and none of
    the seven names to register is taken in it, as a name or as an alias.
    ['Code'] is not needed to construct the generator. *)
Theorem init_succeeds_iff lib f :
  (exists g, __init__ lib f = inr g) <->
  new_template lib (new_doc f) = None /\ registrable (getSampleStyleSheet lib).
Proof.
  rewrite registrable_table. destruct (init_run lib f) as [Hrun Hinv]. split.
  - intros [g Hg]. by apply (Hinv g).
  - intros [Hdoc Hok]. destruct (Hrun Hok Hdoc) as (sh & Hg & _). eauto.
Qed.

(** X2. The generator the constructor returns has the file name it was
    given, in the object and in the template, and an empty story.  Its
    registry is the sample sheet with the seven names added: the aliases are
    those of the sample sheet, every key other than the seven names resolves
    to what it resolves to in the sample sheet, and a name is in the registry
    exactly when it is in the sample sheet or is one of the seven. *)
Theorem init_keeps_sample_styles lib f g :
  __init__ lib f = inr g ->
  filename g = f /\
  doc g = new_doc f /\
  doc_filename (doc g) = filename g /\
  story g = [] /\
  byAlias (styles g) = byAlias (getSampleStyleSheet lib) /\
  (forall key, key ∉ custom_names ->
     getitem (styles g) key = getitem (getSampleStyleSheet lib) key) /\
  (forall key,
     is_Some (byName (styles g) !! key) <->
     is_Some (byName (getSampleStyleSheet lib) !! key) \/ key ∈ custom_names).
Proof.
  intros Hg. destruct (init_run lib f) as [Hrun Hinv].
  destruct (Hinv g Hg) as [Hdoc Hok].
  destruct (Hrun Hok Hdoc) as (sh & Hg' & Hreg).
  rewrite Hg in Hg'. injection Hg' as ->. simpl.
  pose proof Hreg as (Ha & Hn & Hall). rewrite registrations_names in Hn.
  repeat (split; [done|]). split.
  { intros key Hkey. apply (RegisteredAs_getitem _ _ _ _ _ Hreg).
    by rewrite registrations_names. }
  intros key. destruct (decide (key ∈ custom_names)) as [Hin|Hout].
  - split; [by right|]. intros _.
    rewrite <- registrations_names in Hin.
    apply list_elem_of_fmap in Hin as (r & -> & Hr).
    destruct (proj1 (Forall_forall _ _) Hall r Hr) as (p & _ & ->). by eexists.
  - rewrite (Hn key Hout). split; [by left|]. by intros [?|?].
Qed.

Lemma init_keeps_sample_styles_witness :
  getitem (styles (report_generator draining_library)) "h1" =
  getitem sample_sheet "h1".
Proof.
  apply (init_keeps_sample_styles draining_library default_filename
           (report_generator draining_library)).
  - apply generator_at_init; [apply sample_okb_spec; vm_compute|]; reflexivity.
  - refine (bool_decide_unpack ("h1" ∉ custom_names) _). vm_compute. exact I.
Defined.

Lemma derived_attr_spec d name parent kw key :
  style_attrs (new_ParagraphStyle d name parent kw) !! key =
  derived_attr d parent kw key.
Proof.
  unfold new_ParagraphStyle, derived_attr. simpl.
  rewrite !lookup_union.
  destruct (list_to_map kw !! key), (style_attrs parent !! key), (d !! key);
    reflexivity.
Qed.

(** X3. In the generator the constructor returns, each of the seven names
    resolves to the style [ParagraphStyle] derives from the parent of the
    source: the style carries the name, its parent is the style the sample
    sheet has under the parent key (Heading1 for CustomTitle, Heading2 for
    CustomSubtitle and Section, Heading3 for Subsection, Normal for
    CustomCode, BodyText for Highlight and Metric), and each attribute has the
    value of its keyword if there is one, else the parent's, else the class
    default. *)
Theorem init_derives_styles lib f g :
  __init__ lib f = inr g ->
  Forall (fun r =>
            exists parent s,
              getitem (getSampleStyleSheet lib) (reg_parent r) = Some parent /\
              getitem (styles g) (reg_name r) = Some s /\
              style_name s = reg_name r /\
              style_parent s = Some parent /\
              forall key,
                style_attrs s !! key =
                derived_attr (defaults lib) parent (reg_kw r) key)
         registrations.
Proof.
  intros Hg. destruct (init_run lib f) as [Hrun Hinv].
  destruct (Hinv g Hg) as [Hdoc Hok].
  destruct (Hrun Hok Hdoc) as (sh & Hg' & Hreg).
  rewrite Hg in Hg'. injection Hg' as ->. simpl.
  destruct Hreg as (Ha & _ & Hall).
  apply Forall_forall. intros r Hr.
  destruct (proj1 (Forall_forall _ _) Hall r Hr) as (parent & Hp & Hs).
  destruct (proj1 (Forall_forall _ _) Hok r Hr) as (_ & _ & Hfa).
  exists parent, (new_ParagraphStyle (defaults lib) (reg_name r) parent (reg_kw r)).
  split; [done|]. split; [unfold getitem; by rewrite Ha, Hfa|].
  split; [done|]. split; [done|].
  intros key. apply derived_attr_spec.
Qed.

Lemma init_derives_styles_witness :
  Forall (fun r =>
            exists parent s,
              getitem sample_sheet (reg_parent r) = Some parent /\
              getitem (styles (report_generator draining_library)) (reg_name r) = Some s /\
              style_name s = reg_name r /\
              style_parent s = Some parent /\
              forall key,
                style_attrs s !! key =
                derived_attr sample_defaults parent (reg_kw r) key)
         registrations.
Proof.
  apply (init_derives_styles draining_library default_filename
           (report_generator draining_library)).
  apply generator_at_init; [apply sample_okb_spec; vm_compute|]; reflexivity.
Defined.

(** What the derivation gives for the cover title: the size of the source,
    and the leading of the library's 'Heading1'. *)
Example custom_title_attrs :
  (fun s => (style_attrs s !! "fontSize", style_attrs s !! "leading")) <$>
    getitem (styles (report_generator draining_library)) "CustomTitle"
  = Some (Some (VInt 24), Some (VInt 22)).
Proof. vm_compute. reflexivity. Qed.


(** ** The exceptions of the methods *)

Section RaisesMissing.

Context (sh : StyleSheet1).

Lemma raises_missing_append f : raises_missing sh (story_append f).
Proof. intros g Hg. split; [done|]. intros e. by simpl. Qed.

Lemma raises_missing_ret {A} (a : A) : raises_missing sh (ret a).
Proof. intros g Hg. split; [done|]. intros e. by simpl. Qed.

Lemma raises_missing_getitem key :
  key ∈ referenced_names -> raises_missing sh (styles_getitem key).
Proof.
  intros Hkey g Hg. unfold styles_getitem. rewrite Hg.
  destruct (getitem sh key) eqn:Hs; simpl; (split; [done|]); intros e; [done|].
  intros [= <-]. by exists key.
Qed.

Lemma raises_missing_bind {A B} (m : Gen A) (k : A -> Gen B) :
  raises_missing sh m -> (forall a, raises_missing sh (k a)) ->
  raises_missing sh (bind m k).
Proof.
  intros Hm Hk g Hg. destruct (Hm g Hg) as [Hst He]. unfold bind.
  destruct (m g) as [[e|a] g1]; simpl in *.
  - split; [done|]. intros e' [= <-]. by apply He.
  - apply (Hk a g1 Hst).
Qed.

Lemma raises_missing_for_each {A} (xs : list A) (body : A -> Gen unit) :
  (forall x, raises_missing sh (body x)) -> raises_missing sh (for_each xs body).
Proof.
  intros Hbody. induction xs as [|x xs IH]; simpl.
  - apply raises_missing_ret.
  - apply raises_missing_bind; [apply Hbody | intros _; apply IH].
Qed.

End RaisesMissing.

Ltac raises_missing_step :=
  cbv beta zeta;
  lazymatch goal with
  | |- raises_missing _ (bind _ _) => apply raises_missing_bind; [|intros ?]
  | |- raises_missing _ (styles_getitem _) =>
    apply raises_missing_getitem; unfold referenced_names; set_solver
  | |- raises_missing _ (story_append _) => apply raises_missing_append
  | |- raises_missing _ (for_each _ _) => apply raises_missing_for_each; intros ?
  end.

Lemma builder_raises_missing sh now id : raises_missing sh (builder now id).
Proof. destruct id; unfold_builder; repeat raises_missing_step. Qed.

Lemma all_sections_raises_missing sh now : raises_missing sh (all_sections now).
Proof.
  unfold all_sections.
  do 6 (apply raises_missing_bind;
        [first [ apply (builder_raises_missing sh now Cover)
               | apply (builder_raises_missing sh now ExecutiveSummary)
               | apply (builder_raises_missing sh now TechnicalAnalysis)
               | apply (builder_raises_missing sh now OptimizationStrategies)
               | apply (builder_raises_missing sh now ImplementationPlan)
               | apply (builder_raises_missing sh now RoiAnalysis) ]
        | intros _]).
  apply (builder_raises_missing sh now Conclusions).
Qed.

Lemma register_raises d r g e g' :
  register d r g = (inl e, g') -> is_KeyError e.
Proof.
  rewrite register_run. destruct (getitem (styles g) (reg_parent r)).
  - destruct (add _ _) as [e'|sh] eqn:Hadd; [|done]. intros [= <- _].
    by eapply add_is_KeyError.
  - by intros [= <- _].
Qed.

Lemma registrations_raise d rs g e g' :
  for_each rs (register d) g = (inl e, g') -> is_KeyError e.
Proof.
  revert g. induction rs as [|r rs IH]; intros g; simpl; [done|].
  unfold bind. destruct (register d r g) as [[e'|[]] g1] eqn:Hr.
  - intros [= <- _]. by eapply register_raises.
  - apply IH.
Qed.

(** X4. The exceptions the generator can raise.  The constructor raises what
    the library's template constructor raises, or else a [KeyError] of the
    registry.  A section builder raises only the [KeyError] of one of the
    eight names it looks up, and only when the registry lacks that name.
    [generate] raises what the console's encoder raised for the opening line,
    and then nothing has been built; or such a [KeyError], and then [build]
    has not been called; or what its one call of [build] raised; or, after
    [build] returned, what the console's encoder raised for one of the two
    closing lines, what the operating system raised when asked for the size
    of the file, or the [OverflowError] of the division. *)
Theorem exceptions_of_the_generator lib f now id g p e :
  (__init__ lib f = inl e ->
   new_template lib (new_doc f) = Some e \/ is_KeyError e) /\
  ((builder now id g).1 = inl e ->
   exists key, key ∈ referenced_names /\ getitem (styles g) key = None /\
               e = not_found key) /\
  ((generate lib now g p).1.1 = inl e ->
   (encode_error p (start_message g) = Some e /\
    (generate lib now g p).1.2 = g /\ (generate lib now g p).2 = p) \/
   (exists key, key ∈ referenced_names /\ getitem (styles g) key = None /\
                e = not_found key /\
                build_calls (generate lib now g p).2 = build_calls p) \/
   (exists st, build_calls (generate lib now g p).2 = build_calls p ++ [(doc g, st)] /\
               (outcome (build lib (doc g) st) = inl e \/
                exists size, outcome (build lib (doc g) st) = inr size /\
                             report_fails g size p e))).
Proof.
  split; [|split].
  - unfold __init__. destruct (new_template lib (new_doc f)) as [e'|].
    { intros [= <-]. by left. }
    rewrite setup_as_table.
    destruct (for_each registrations _ _) as [[e'|[]] g'] eqn:E; [|done].
    intros [= <-]. right. by eapply registrations_raise.
  - apply (builder_raises_missing (styles g) now id g eq_refl).
  - rewrite generate_eq. unfold print.
    destruct (encode_error p (start_message g)) as [e0|] eqn:Henc.
    { cbn. intros [= <-]. by left. }
    destruct (all_sections_raises_missing (styles g) now g eq_refl) as [_ He].
    destruct (all_sections_sound (styles g) now) as (r & b & Hb & _).
    rewrite (Hb g eq_refl) in He |- *. cbn [fst snd] in He.
    destruct r as [e'|[]].
    + cbn. intros [= <-]. right. left.
      destruct (He e' eq_refl) as (key & ? & ? & ?). by exists key.
    + cbv zeta. cbn [doc story set_story].
      destruct (outcome _) as [e'|size] eqn:Hout.
      * cbn. intros [= <-]. right. right. eexists. split; [done|]. by left.
      * cbn [fst snd]. intros Hf%report_raises. right. right. eexists. split.
        { by destruct (report_frame (set_story (set_story g (story g ++ b))
                                       (remaining (build lib (doc g) (story g ++ b))))
                         size (record_build (doc g) (story g ++ b)
                                 (write (start_message g) p))) as [-> _]. }
        right. by exists size.
Qed.

Lemma exceptions_of_the_generator_witness :
  new_template bare_library (new_doc "x.pdf") = Some (not_found "Heading1") \/
  is_KeyError (not_found "Heading1").
Proof.
  apply (proj1 (exceptions_of_the_generator bare_library "x.pdf" nov_4 Cover
                  (blank sample_sheet) console (not_found "Heading1"))).
  vm_compute. reflexivity.
Defined.

(** ** A registry that lacks a style *)

(** One step of a derivation of [appends] for a method that raises at a
    lookup: the statements before it succeed. *)
Ltac raise_step :=
  cbv beta zeta;
  lazymatch goal with
  | |- appends _ (bind _ _) (inl _) _ =>
    first [ eapply appends_bind; [solve [repeat appends_step] | ]
          | eapply appends_bind_raise ]
  | |- appends _ (styles_getitem _) (inl _) _ =>
    eapply appends_getitem_None; eassumption
  end.

Ltac unfold_sections :=
  unfold all_sections, add_cover_page, add_executive_summary,
    add_technical_analysis, add_optimization_strategies,
    add_implementation_plan, add_roi_analysis, add_conclusions.

Lemma all_sections_first_missing sh now key n :
  first_missing sh = Some (key, n) ->
  exists b, appends sh (all_sections now) (inl (not_found key)) b /\ length b = n.
Proof.
  unfold first_missing, first_lookups. simpl List.find. intros H.
  destruct (getitem sh "CustomTitle") eqn:H1;
    [|injection H as <- <-; eexists; split;
      [unfold_sections; repeat raise_step|reflexivity]].
  destruct (getitem sh "CustomSubtitle") eqn:H2;
    [|injection H as <- <-; eexists; split;
      [unfold_sections; repeat raise_step|reflexivity]].
  destruct (getitem sh "BodyText") eqn:H3;
    [|injection H as <- <-; eexists; split;
      [unfold_sections; repeat raise_step|reflexivity]].
  destruct (getitem sh "Section") eqn:H4;
    [|injection H as <- <-; eexists; split;
      [unfold_sections; repeat raise_step|reflexivity]].
  destruct (getitem sh "Subsection") eqn:H5;
    [|injection H as <- <-; eexists; split;
      [unfold_sections; repeat raise_step|reflexivity]].
  destruct (getitem sh "Highlight") eqn:H6;
    [|injection H as <- <-; eexists; split;
      [unfold_sections; repeat raise_step|reflexivity]].
  destruct (getitem sh "Code") eqn:H7;
    [|injection H as <- <-; eexists; split;
      [unfold_sections; repeat raise_step|reflexivity]].
  destruct (getitem sh "Metric") eqn:H8;
    [|injection H as <- <-; eexists; split;
      [unfold_sections; repeat raise_step|reflexivity]].
  discriminate H.
Qed.

Lemma first_missing_None sh : first_missing sh = None <-> resolves sh.
Proof.
  unfold first_missing, first_lookups, resolves, referenced_names.
  simpl List.find. rewrite !Forall_cons, Forall_nil. split.
  - intros H.
    destruct (getitem sh "CustomTitle"); [|discriminate H].
    destruct (getitem sh "CustomSubtitle"); [|discriminate H].
    destruct (getitem sh "BodyText"); [|discriminate H].
    destruct (getitem sh "Section"); [|discriminate H].
    destruct (getitem sh "Subsection"); [|discriminate H].
    destruct (getitem sh "Highlight"); [|discriminate H].
    destruct (getitem sh "Code"); [|discriminate H].
    destruct (getitem sh "Metric"); [|discriminate H].
    repeat (split; [by eexists|]). done.
  - intros ([? ->] & [? ->] & [? ->] & [? ->] & [? ->] & [? ->] & [? ->] & [? ->] & _).
    reflexivity.
Qed.

(** X5. When the registry lacks one of the eight styles, [generate] raises
    the [KeyError] of the first one it comes to look up, in the order
    CustomTitle, CustomSubtitle, BodyText, Section, Subsection, Highlight,
    Code, Metric.  The flowables appended before that lookup stay in the
    story (0, 2, 6, 8, 11, 58, 66 or 96 of them); [build] is not called, and
    only the opening line is printed.  (When the console refuses the opening
    line, [generate] stops there and the story is as it was.)  [build] is
    called exactly when the opening line was printed and the registry lacks
    none of the eight. *)
Theorem generate_stops_at_first_missing lib now g p :
  (forall key n,
     first_missing (styles g) = Some (key, n) ->
     exists blocks,
       generate lib now g p =
         match print (start_message g) p with
         | inl e => (inl e, g, p)
         | inr p0 => (inl (not_found key), set_story g (story g ++ blocks), p0)
         end /\
       length blocks = n /\
       build_calls (generate lib now g p).2 = build_calls p) /\
  (first_missing (styles g) = None /\ encode_error p (start_message g) = None <->
   build_calls (generate lib now g p).2 =
     build_calls p ++ [(doc g, assembled g now)]).
Proof.
  split.
  - intros key n Hm.
    destruct (all_sections_first_missing (styles g) now key n Hm) as (b & Hb & Hn).
    exists b. rewrite (generate_raise lib now g p _ b Hb).
    split; [done|]. split; [done|]. unfold print.
    by destruct (encode_error p (start_message g)).
  - split.
    + intros [Hres%first_missing_None Henc].
      rewrite (generate_calls lib now g p Hres). unfold handed_over.
      by rewrite Henc.
    + intros Hcalls.
      assert (forall l : list (SimpleDocTemplate * list Flowable),
                build_calls p = build_calls p ++ l -> l = []) as Hnil.
      { intros l Hl. apply (f_equal length) in Hl. rewrite length_app in Hl.
        destruct l; [done|]. simpl in Hl. lia. }
      destruct (first_missing (styles g)) as [[key n]|] eqn:Hm.
      * exfalso.
        destruct (all_sections_first_missing (styles g) now key n Hm)
          as (b & Hb & Hn).
        rewrite (generate_raise lib now g p _ b Hb) in Hcalls. unfold print in Hcalls.
        destruct (encode_error p (start_message g));
          cbn in Hcalls; by apply Hnil in Hcalls.
      * split; [done|]. apply first_missing_None in Hm.
        rewrite (generate_calls lib now g p Hm) in Hcalls. unfold handed_over in Hcalls.
        destruct (encode_error p (start_message g)); [|done].
        apply app_inv_head in Hcalls. done.
Qed.

Lemma generate_stops_at_first_missing_witness :
  exists blocks,
    generate codeless_library nov_4 (report_generator codeless_library) console =
      match print (start_message (report_generator codeless_library)) console with
      | inl e => (inl e, report_generator codeless_library, console)
      | inr p0 =>
        (inl (not_found "Code"),
         set_story (report_generator codeless_library)
           (story (report_generator codeless_library) ++ blocks),
         p0)
      end /\
    length blocks = 66 /\
    build_calls (generate codeless_library nov_4
                   (report_generator codeless_library) console).2 =
      build_calls console.
Proof.
  apply (proj1 (generate_stops_at_first_missing codeless_library nov_4
                  (report_generator codeless_library) console) "Code" 66).
  vm_compute. reflexivity.
Defined.

(** ** The date line *)

Lemma digit_read acc n s :
  read_digits acc (digit n +:+ s) = read_digits (10 * acc + n mod 10) s.
Proof.
  unfold digit. change (String ?c "" +:+ s) with (String c s).
  cbn [read_digits]. rewrite Ascii.nat_ascii_embedding.
  - f_equal. lia.
  - pose proof (Nat.mod_upper_bound n 10). lia.
Qed.

Lemma decimal_go_read fuel :
  forall n, n < fuel ->
  exists k, forall acc s,
    read_digits acc (decimal_go fuel n s) = read_digits (acc * 10 ^ k + n) s.
Proof.
  induction fuel as [|fuel IH]; intros n Hn; [lia|]. cbn [decimal_go].
  destruct (n / 10 =? 0) eqn:Hq.
  - apply Nat.eqb_eq in Hq. exists 1. intros acc s. rewrite digit_read.
    f_equal. pose proof (Nat.div_mod_eq n 10). rewrite Nat.pow_1_r. lia.
  - apply Nat.eqb_neq in Hq.
    assert (n / 10 < fuel) as Hlt.
    { pose proof (Nat.div_mod_eq n 10). lia. }
    destruct (IH (n / 10) Hlt) as (k & Hk). exists (S k). intros acc s.
    rewrite Hk, digit_read. f_equal.
    pose proof (Nat.div_mod_eq n 10). rewrite Nat.pow_succ_r'. lia.
Qed.

(** The decimal digits of a number read back as the number. *)
Lemma read_decimal n : read_digits 0 (decimal n) = n.
Proof.
  unfold decimal. destruct (decimal_go_read (S n) n) as (k & Hk); [lia|].
  rewrite Hk. cbn [read_digits]. lia.
Qed.

Lemma decimal_inj n1 n2 : decimal n1 = decimal n2 -> n1 = n2.
Proof. intros H. by rewrite <- (read_decimal n1), H, read_decimal. Qed.

Lemma string_app_length (s t : string) :
  String.length (s +:+ t) = String.length s + String.length t.
Proof. induction s as [|c s IH]; simpl; [done|]. by rewrite IH. Qed.

Lemma string_app_assoc (s t u : string) : s +:+ t +:+ u = (s +:+ t) +:+ u.
Proof.
  induction s as [|c s IH]; [done|].
  change (String c (s +:+ t +:+ u) = String c ((s +:+ t) +:+ u)). by rewrite IH.
Qed.

Lemma string_app_inv_head (s t1 t2 : string) : s +:+ t1 = s +:+ t2 -> t1 = t2.
Proof. induction s as [|c s IH]; simpl; [done|]. intros [= H]. by apply IH. Qed.

Lemma string_app_inv_tail (s1 s2 t : string) : s1 +:+ t = s2 +:+ t -> s1 = s2.
Proof.
  revert s2. induction s1 as [|c s1 IH]; intros [|c2 s2] H.
  - done.
  - apply (f_equal String.length) in H.
    rewrite !string_app_length in H. cbv [String.length] in H.
    fold String.length in H. lia.
  - apply (f_equal String.length) in H.
    rewrite !string_app_length in H. cbv [String.length] in H.
    fold String.length in H. lia.
  - change (String c (s1 +:+ t) = String c2 (s2 +:+ t)) in H.
    injection H as -> H. f_equal. by apply IH.
Qed.

Lemma digit_app_inv a b s t :
  digit a +:+ s = digit b +:+ t -> a mod 10 = b mod 10 /\ s = t.
Proof.
  unfold digit. change (String ?c "" +:+ ?s) with (String c s).
  set (ca := 48 + a mod 10). set (cb := 48 + b mod 10).
  intros H.
  assert (Ascii.ascii_of_nat ca = Ascii.ascii_of_nat cb /\ s = t) as [Hc ->].
  { split; congruence. }
  split; [|done].
  apply (f_equal Ascii.nat_of_ascii) in Hc.
  pose proof (Nat.mod_upper_bound a 10). pose proof (Nat.mod_upper_bound b 10).
  rewrite !Ascii.nat_ascii_embedding in Hc by (unfold ca, cb; lia).
  unfold ca, cb in Hc. lia.
Qed.

Lemma strftime_B_inj d1 d2 s1 s2 :
  strftime_B d1 +:+ ", " +:+ s1 = strftime_B d2 +:+ ", " +:+ s2 ->
  dt_month d1 = dt_month d2 /\ s1 = s2.
Proof.
  unfold strftime_B.
  destruct (dt_month d1), (dt_month d2);
    cbv beta iota delta [String.append]; intros H;
    first [discriminate H | by simplify_eq].
Qed.

(** The date line tells the date: two dates, with days of at most two
    digits, that format to the same text are the same date. *)
Lemma strftime_inj d1 d2 :
  dt_day d1 < 100 -> dt_day d2 < 100 -> strftime d1 = strftime d2 -> d1 = d2.
Proof.
  intros H1 H2. unfold strftime, strftime_d, strftime_Y.
  rewrite <- !string_app_assoc.
  intros [Hq [Hr Hrest]%digit_app_inv]%digit_app_inv.
  apply (string_app_inv_head " de ") in Hrest.
  apply strftime_B_inj in Hrest as [Hm Hy]. apply decimal_inj in Hy.
  destruct d1 as [y1 m1 day1], d2 as [y2 m2 day2].
  cbn [dt_day dt_year dt_month] in *.
  rewrite !Nat.mod_small in Hq by (apply Nat.Div0.div_lt_upper_bound; lia).
  pose proof (Nat.div_mod_eq day1 10). pose proof (Nat.div_mod_eq day2 10).
  f_equal; [done|done|lia].
Qed.

Lemma info_text_inj now1 now2 :
  info_text now1 = info_text now2 -> strftime now1 = strftime now2.
Proof.
  unfold info_text. rewrite <- !string_app_assoc.
  intros H. do 5 apply string_app_inv_head in H.
  by apply string_app_inv_tail in H.
Qed.

Lemma cover_date_line sh :
  resolves sh ->
  exists s, getitem sh "BodyText" = Some s /\
            forall now, contribution sh now Cover !! 6 = Some (Paragraph (info_text now) s).
Proof.
  intros Hres.
  destruct (resolves_lookups sh Hres)
    as (s1 & s2 & s3 & s4 & s5 & s6 & s7 & s8 &
        H1 & H2 & H3 & H4 & H5 & H6 & H7 & H8).
  exists s7. split; [done|]. intros now.
  assert (exists b, appends sh (add_cover_page now) (inr tt) b /\
                    b !! 6 = Some (Paragraph (info_text now) s7)) as (b & Hb & H6').
  { unfold add_cover_page. eexists. split; [repeat appends_step|reflexivity]. }
  unfold contribution, builder. by rewrite (Hb (blank sh) eq_refl).
Qed.

(** X6. On a generator whose registry has the styles looked up, the cover
    page built at two moments is the same exactly when the two moments have
    the same date (year, month and day, the day of at most two digits): the
    date line determines the date. *)
Theorem cover_page_tells_the_date now1 now2 g :
  resolves (styles g) ->
  dt_day now1 < 100 -> dt_day now2 < 100 ->
  (appended (add_cover_page now1) g = appended (add_cover_page now2) g <->
   now1 = now2) /\
  (strftime now1 = strftime now2 <-> now1 = now2).
Proof.
  intros Hres Hd1 Hd2.
  assert (strftime now1 = strftime now2 <-> now1 = now2) as Hstr.
  { split; [by apply strftime_inj|by intros ->]. }
  split; [|done]. split; [|by intros ->].
  unfold appended.
  change (add_cover_page now1) with (builder now1 Cover).
  change (add_cover_page now2) with (builder now2 Cover).
  rewrite (builder_ok now1 Cover g Hres), (builder_ok now2 Cover g Hres).
  cbn [snd story set_story].
  rewrite !drop_app_length. intros H.
  destruct (cover_date_line (styles g) Hres) as (s & _ & Hline).
  pose proof (Hline now1) as L1. rewrite H, Hline in L1.
  apply Hstr, info_text_inj. congruence.
Qed.

Lemma cover_page_tells_the_date_witness :
  strftime nov_4 = strftime nov_5 <-> nov_4 = nov_5.
Proof.
  apply (cover_page_tells_the_date nov_4 nov_5 (report_generator draining_library)).
  - apply resolvesb_spec. vm_compute. reflexivity.
  - unfold nov_4. cbn [dt_day]. lia.
  - unfold nov_5. cbn [dt_day]. lia.
Defined.

(** ** Tables on the page *)

Lemma frame_width_new_doc f : (frame_width (new_doc f) == 492)%Q.
Proof. vm_compute. reflexivity. Qed.

Lemma report_tables_well_formed : Forall (well_formed 492) report_tables.
Proof.
  unfold report_tables, generate_order. cbn [flat_map section_tables app].
  repeat (apply Forall_cons; split;
    [split; [|split; [|split]];
       [repeat (apply Forall_cons; split; [reflexivity|]); constructor
       |reflexivity
       |repeat (apply Forall_cons; split; [vm_compute; intuition discriminate|]);
        constructor
       |vm_compute; discriminate]|]).
  constructor.
Qed.

Lemma tables_of_elem t st : TableF t ∈ st <-> t ∈ tables_of st.
Proof.
  unfold tables_of. rewrite list_elem_of_omap. split.
  - intros H. by exists (TableF t).
  - intros (fl & Hfl & Ht). destruct fl; simplify_eq. done.
Qed.

(** X7. When a generator the constructor returned, with the styles looked up
    in its registry, runs [generate], every table of the story handed to
    [build] (in the one call [generate] makes, unless the console refused its
    opening line) is well formed for the layout library: all its rows have the same
    number of cells, [colWidths] gives one width per column, each style
    command addresses cells that exist (negative coordinates counting from
    the end), and the column widths add up to no more than the frame of the
    template: the letter page, less the margins of 0.75 inch and the frame's
    padding. *)
Theorem tables_fit_the_page lib f now g p :
  __init__ lib f = inr g ->
  resolves (styles g) ->
  exists st,
    build_calls (generate lib now g p).2 = build_calls p ++ handed_over g p st /\
    forall t, TableF t ∈ st -> well_formed (frame_width (doc g)) t.
Proof.
  intros Hg Hres. exists (assembled g now).
  split; [apply (generate_calls lib now g p Hres)|].
  intros t Ht. apply tables_of_elem in Ht.
  rewrite (tables_of_assembled g now Hres) in Ht.
  destruct (init_object lib f g Hg) as (sh & ->). cbn [story doc] in *.
  cbn [tables_of omap app] in Ht.
  pose proof (proj1 (Forall_forall _ _) report_tables_well_formed t Ht)
    as (Hrows & Hcols & Hcmds & Hw).
  repeat (split; [done|]). by rewrite frame_width_new_doc.
Qed.

Lemma tables_fit_the_page_witness :
  exists st,
    build_calls (generate draining_library nov_4 (report_generator draining_library)
                   console).2 =
      build_calls console ++
        handed_over (report_generator draining_library) console st /\
    forall t, TableF t ∈ st ->
      well_formed (frame_width (doc (report_generator draining_library))) t.
Proof.
  apply (tables_fit_the_page draining_library default_filename).
  - apply generator_at_init; [apply sample_okb_spec; vm_compute|]; reflexivity.
  - apply resolvesb_spec. vm_compute. reflexivity.
Defined.

(** ** The console *)

Lemma start_is_not_success g : start_message g <> success_message g.
Proof. unfold start_message, success_message. intros H. discriminate H. Qed.

(** X8. What [generate] prints tells how far it came.  The lines already on
    the console stay, and [generate] adds the opening line, the line of
    success and the line with the size, in this order, or the first or the
    first two of them, or none.  It returns exactly when it has added all
    three, and then it returns the file name of the generator and the size
    printed is that of the file [build] wrote.  The line of success is on the
    console only if [build] returned: when a style lookup or [build] raised,
    the opening line alone has been added. *)
Theorem console_tells_the_outcome lib now g p :
  let out := generate lib now g p in
  exists lines,
    stdout out.2 = stdout p ++ lines /\
    (lines = [] \/ lines = [start_message g] \/
     lines = [start_message g; success_message g] \/
     exists size kb,
       outcome (build lib (doc g) (assembled g now)) = inr size /\
       format_kb size = inr kb /\ lines = success_lines g kb) /\
    (forall name, out.1.1 = inr name <-> name = filename g /\ length lines = 3) /\
    (success_message g ∈ lines ->
     exists size, outcome (build lib (doc g) (assembled g now)) = inr size) /\
    (forall e,
       out.1.1 = inl e ->
       first_missing (styles g) <> None \/
       outcome (build lib (doc g) (assembled g now)) = inl e ->
       lines = [] \/ lines = [start_message g]).
Proof.
  cbv zeta.
  assert (forall q, stdout q = stdout q ++ []) as Hnil
    by (intros; by rewrite app_nil_r).
  pose proof (start_is_not_success g) as Hne.
  destruct (encode_error p (start_message g)) as [e0|] eqn:Henc.
  { exists []. rewrite generate_eq. unfold print. rewrite Henc. cbn.
    split; [done|]. split; [by left|]. split.
    - intros name. split; [done|]. by intros [_ [=]].
    - split; [by intros ?%elem_of_nil|]. intros; by left. }
  destruct (first_missing (styles g)) as [[key n]|] eqn:Hm.
  { destruct (all_sections_first_missing (styles g) now key n Hm) as (b & Hb & _).
    exists [start_message g].
    rewrite (generate_raise lib now g p _ b Hb). unfold print. rewrite Henc. cbn.
    split; [done|]. split; [right; by left|]. split.
    - intros name. split; [done|]. by intros [_ [=]].
    - split; [|intros; by right].
      intros [?|[]%elem_of_nil]%elem_of_cons. by destruct Hne. }
  apply first_missing_None in Hm.
  destruct (generate_effect lib now g p Hm Henc) as (Hr & _ & Hp).
  rewrite Hr, Hp. clear Hr Hp.
  set (p1 := record_build (doc g) (assembled g now) (write (start_message g) p)).
  destruct (outcome (build lib (doc g) (assembled g now))) as [e|size] eqn:Hout.
  { exists [start_message g]. cbn.
    split; [done|]. split; [right; by left|]. split.
    - intros name. split; [done|]. by intros [_ [=]].
    - split; [|intros; by right].
      intros [?|[]%elem_of_nil]%elem_of_cons. by destruct Hne. }
  destruct (report g size p1).1 as [e|name'] eqn:Hrep.
  - destruct (report_raised_stdout g size p1 e Hrep) as [-> | ->].
    + exists [start_message g]. cbn.
      split; [done|]. split; [right; by left|]. split.
      * intros name. split; [done|]. by intros [_ [=]].
      * split; [by exists size|]. intros; by right.
    + exists [start_message g; success_message g]. cbn.
      split; [by rewrite <- app_assoc|]. split; [right; right; by left|]. split.
      * intros name. split; [done|]. by intros [_ [=]].
      * split; [by exists size|]. intros e' _ [[]|[=]]. done.
  - destruct (report_returns g size p1 name' Hrep)
      as (-> & kb & Hkb & _ & _ & _ & ->).
    exists (success_lines g kb). cbn.
    split; [by rewrite <- !app_assoc|].
    split; [right; right; right; by exists size, kb|]. split.
    + intros name. split; [by intros [= <-]|]. by intros [-> _].
    + split; [by exists size|]. intros e' [=].
Qed.

(** ** The size line *)












(** ** Pages *)

Lemma no_break_spec pg : no_break pg = true -> PageBreak ∉ pg.
Proof.
  unfold no_break. rewrite forallb_forall. intros H Hin%list_elem_of_In.
  by apply H in Hin.
Qed.

Lemma all_sections_pages sh now :
  resolves sh ->
  exists sec title cover rest,
    getitem sh "Section" = Some sec /\
    getitem sh "CustomTitle" = Some title /\
    appends sh (all_sections now) (inr tt)
      (cover ++ flat_map (fun pg => PageBreak :: pg) rest) /\
    (exists tail, cover = Paragraph "JobNimbus MCP Remote Server" title :: tail) /\
    Forall (fun pg => PageBreak ∉ pg) (cover :: rest) /\
    Forall2 (fun heading pg => exists tail, pg = Paragraph heading sec :: tail)
      section_titles rest.
Proof.
  intros Hres.
  destruct (resolves_lookups sh Hres)
    as (s1 & s2 & s3 & s4 & s5 & s6 & s7 & s8 &
        H1 & H2 & H3 & H4 & H5 & H6 & H7 & H8).
  assert (exists b, appends sh (all_sections now) (inr tt) b /\
            let pages := split_pages b in
            b = pages.1 ++ flat_map (fun pg => PageBreak :: pg) pages.2 /\
            (exists tail, pages.1 = Paragraph "JobNimbus MCP Remote Server" s1 :: tail) /\
            forallb no_break (pages.1 :: pages.2) = true /\
            Forall2 (fun heading pg => exists tail, pg = Paragraph heading s3 :: tail)
              section_titles pages.2)
    as (b & Hb & Hsplit & Hcover & Hno & Hhead).
  { eexists. split; [unfold_sections; repeat appends_step|].
    cbv zeta. split; [reflexivity|]. split; [eexists; reflexivity|].
    split; [reflexivity|].
    unfold section_titles.
    repeat (apply List.Forall2_cons; [eexists; reflexivity|]).
    apply List.Forall2_nil. }
  exists s3, s1, (split_pages b).1, (split_pages b).2.
  split; [done|]. split; [done|]. split; [by rewrite <- Hsplit|].
  split; [done|]. split; [|done].
  apply Forall_forall. intros pg Hpg. apply no_break_spec.
  rewrite forallb_forall in Hno. by apply Hno, list_elem_of_In.
Qed.

(** X10. On a generator whose registry has the styles looked up, the story
    [generate] hands to [build] (in the one call it makes, unless the console
    refused its opening line) is what the story held before, then the
    cover page, then six groups of flowables, each after a [PageBreak]: every
    section after the cover starts on a new page.  The cover begins with the
    title in the style 'CustomTitle'; each of the six groups begins with the
    heading of its section, in the style 'Section'; and there is no other
    [PageBreak], none at the end in particular. *)
Theorem sections_start_on_new_pages lib now g p :
  resolves (styles g) ->
  exists sec title cover rest,
    getitem (styles g) "Section" = Some sec /\
    getitem (styles g) "CustomTitle" = Some title /\
    build_calls (generate lib now g p).2 =
      build_calls p ++
        handed_over g p
          (story g ++ cover ++ flat_map (fun pg => PageBreak :: pg) rest) /\
    (exists tail, cover = Paragraph "JobNimbus MCP Remote Server" title :: tail) /\
    Forall (fun pg => PageBreak ∉ pg) (cover :: rest) /\
    Forall2 (fun heading pg => exists tail, pg = Paragraph heading sec :: tail)
      section_titles rest.
Proof.
  intros Hres.
  destruct (all_sections_pages (styles g) now Hres)
    as (sec & title & cover & rest & Hsec & Htitle & Hb & Hcover & Hno & Hhead).
  exists sec, title, cover, rest.
  repeat (split; [done|]). split; [|done].
  rewrite (generate_calls lib now g p Hres).
  pose proof (all_sections_ok now g Hres) as Hok.
  rewrite (Hb g eq_refl) in Hok. injection Hok as Hok. by rewrite Hok.
Qed.

Lemma sections_start_on_new_pages_witness :
  exists sec title cover rest,
    getitem (styles (report_generator draining_library)) "Section" = Some sec /\
    getitem (styles (report_generator draining_library)) "CustomTitle" = Some title /\
    build_calls (generate draining_library nov_4 (report_generator draining_library)
                   console).2 =
      build_calls console ++
        handed_over (report_generator draining_library) console
          (story (report_generator draining_library) ++ cover ++
           flat_map (fun pg => PageBreak :: pg) rest) /\
    (exists tail, cover = Paragraph "JobNimbus MCP Remote Server" title :: tail) /\
    Forall (fun pg => PageBreak ∉ pg) (cover :: rest) /\
    Forall2 (fun heading pg => exists tail, pg = Paragraph heading sec :: tail)
      section_titles rest.
Proof.
  apply (sections_start_on_new_pages draining_library nov_4
           (report_generator draining_library) console).
  apply resolvesb_spec. vm_compute. reflexivity.
Defined.
